(** * Digital-wellness data-entry form: session store, validation, submission

    Shallow embedding of [src/input.py] (classes [DataManager] and
    [DigitalWellnessApp], the two Dash callbacks) and the properties the
    specification states about them.

    Python integers are unbounded, so they are [Z].  Text is [string].
    The [apps] dictionary of the submitted document is a [gmap] keyed by
    the application name.  The object [self.data_manager] is threaded
    explicitly through the callbacks; the document store is observed through
    the list of calls a callback issues to it. *)

From Stdlib Require Import ZArith Ascii String List Lia.
From stdpp Require Import base option list strings gmap.

Local Open Scope Z_scope.

(** ** Python values that reach the callbacks *)

Module Py.

(** What a [dcc.Input] hands to a callback as the value of a numeric
    field: [None] when the field was left empty, an [int], a [float]
    (finite, written [m * 2^e], or NaN), or text.  Text is kept as its
    characters [s]; when it holds characters beyond ASCII, what [int]
    makes of it depends on the Unicode tables of decimal digits and
    blanks, which are not modelled, so the value carries that result as
    [beyond_ascii] ([None] for [ValueError]).  An infinite float is left
    out: [int] raises [OverflowError] on it, which the callback does not
    handle. *)
Inductive value : Type :=
| VNone
| VInt (z : Z)
| VFloat (m e : Z)
| VNaN
| VStr (s : string) (beyond_ascii : option Z).

(** [x or 0] on an [int]: the left operand unless it is falsy. *)
Definition or0 (x : Z) : Z := if x =? 0 then 0 else x.

(** Truthiness of an optional text ([not app_name], [not date_input]). *)
Definition truthy (s : option string) : bool :=
  match s with
  | None => false
  | Some EmptyString => false
  | Some (String _ _) => true
  end.

Definition is_ascii (c : ascii) : bool :=
  Z.of_nat (nat_of_ascii c) <? 128.

(** Characters [int] skips around a literal in ASCII text: tab, line
    feed, vertical tab, form feed, carriage return and space. *)
Definition is_space (c : ascii) : bool :=
  let n := Z.of_nat (nat_of_ascii c) in
  ((9 <=? n) && (n <=? 13)) || (n =? 32).

Definition digit_of (c : ascii) : option Z :=
  let n := Z.of_nat (nat_of_ascii c) in
  if (48 <=? n) && (n <=? 57) then Some (n - 48) else None.

Definition is_digit (c : ascii) : bool :=
  match digit_of c with
  | Some _ => true
  | None => false
  end.

Fixpoint lstrip (s : list ascii) : list ascii :=
  match s with
  | c :: s' => if is_space c then lstrip s' else s
  | [] => []
  end.

Definition strip (s : list ascii) : list ascii :=
  rev (lstrip (rev (lstrip s))).

(** Decimal digits, single underscores allowed between two digits.
    [after_digit] tells whether the previous character was a digit. *)
Fixpoint digits (acc : Z) (after_digit : bool) (s : list ascii) : option Z :=
  match s with
  | [] => if after_digit then Some acc else None
  | c :: s' =>
      match digit_of c with
      | Some d => digits (acc * 10 + d) true s'
      | None =>
          if Ascii.eqb c "_"%char && after_digit then digits acc false s'
          else None
      end
  end.

(** The default of [sys.get_int_max_str_digits()]: a decimal literal with
    more digits is refused with [ValueError]. *)
Definition max_str_digits : Z := 4300.

(** The literal after the sign. *)
Definition unsigned (body : list ascii) : option Z :=
  if max_str_digits <? Z.of_nat (length (List.filter is_digit body)) then None
  else digits 0 false body.

(** [int(s)] for text, base ten: surrounding blanks, an optional sign,
    then the digits.  [None] stands for the [ValueError] it raises.  Text
    with a character beyond ASCII converts to [beyond_ascii]. *)
Definition int_of_str (s : string) (beyond_ascii : option Z) : option Z :=
  let cs := list_ascii_of_string s in
  if forallb is_ascii cs then
    match strip cs with
    | c :: s' =>
        if Ascii.eqb c "-"%char then Z.opp <$> unsigned s'
        else if Ascii.eqb c "+"%char then unsigned s'
        else unsigned (c :: s')
    | [] => None
    end
  else beyond_ascii.

(** [int(x)] for a finite float: truncation towards zero. *)
Definition int_of_float (m e : Z) : Z :=
  if 0 <=? e then m * 2 ^ e else Z.quot m (2 ^ (- e)).

(** [int(v) if v is not None else 0]; [None] is the [ValueError], raised
    on NaN and on text that is no integer literal. *)
Definition int_or_zero (v : value) : option Z :=
  match v with
  | VNone => Some 0
  | VInt z => Some z
  | VFloat m e => Some (int_of_float m e)
  | VNaN => None
  | VStr s beyond_ascii => int_of_str s beyond_ascii
  end.

End Py.

Module PyList.

(** [sum(xs)]: a left fold from [0]. *)
Definition sum (xs : list Z) : Z := foldl Z.add 0 xs.

(** [xs[i]]: a negative index counts from the end; [None] stands for the
    [IndexError] raised outside [-len(xs) .. len(xs) - 1]. *)
Definition getitem {A} (xs : list A) (i : Z) : option A :=
  let n := Z.of_nat (length xs) in
  if (0 <=? i) && (i <? n) then xs !! Z.to_nat i
  else if (- n <=? i) && (i <? 0) then xs !! Z.to_nat (n + i)
  else None.

(** [{k: v for (k, v) in kvs}]: keys are inserted from left to right, a
    later key replacing an equal earlier one. *)
Definition dict {V} (kvs : list (string * V)) : gmap string V :=
  foldl (λ d kv, <[kv.1 := kv.2]> d) ∅ kvs.

End PyList.

(** ** The session store: class [DataManager] *)

(** One element of [self.apps_data]: the dictionary with keys ["name"],
    ["screenTime"] and ["opens"]. *)
Record app_data : Type := AppData {
  name : string;
  screenTime : Z;
  opens : Z
}.

Record DataManager : Type := { apps_data : list app_data }.

(** [DataManager.__init__] *)
Definition init : DataManager := {| apps_data := [] |}.

Definition parse_screen_time (hours minutes seconds : Z) : Z :=
  (hours * 3600) + (minutes * 60) + seconds.

Definition add_app (app_name : string) (hours minutes seconds opens : Z)
    (self : DataManager) : DataManager :=
  let screen_time_seconds :=
    parse_screen_time (Py.or0 hours) (Py.or0 minutes) (Py.or0 seconds) in
  let app :=
    {| name := app_name;
       screenTime := screen_time_seconds;
       opens := Py.or0 opens |} in
  {| apps_data := apps_data self ++ [app] |}.

Definition get_apps_data (self : DataManager) : list app_data :=
  apps_data self.

Definition remove_app (index : Z) (self : DataManager) : DataManager :=
  if (0 <=? index) && (index <? Z.of_nat (length (apps_data self)))
  then {| apps_data := delete (Z.to_nat index) (apps_data self) |}
  else self.

(** ** The submitted document *)

(** A value of the [apps] dictionary. *)
Record app_stats : Type := AppStats {
  stats_screenTime : Z;
  stats_opens : Z
}.

Record summary_data : Type := {
  summary_screenTime : Z;
  summary_unlocks : Z
}.

Record document : Type := {
  date : string;
  summary : summary_data;
  apps : gmap string app_stats
}.

Definition prepare_submission_data (date_input : string)
    (self : DataManager) : document :=
  let total_screen_time_seconds :=
    PyList.sum (map screenTime (apps_data self)) in
  {| date := date_input;
     summary :=
       {| summary_screenTime := total_screen_time_seconds;
          summary_unlocks := PyList.sum (map opens (apps_data self)) |};
     apps :=
       PyList.dict
         (map (λ app, (name app,
                        {| stats_screenTime := screenTime app;
                           stats_opens := opens app |}))
              (apps_data self)) |}.

(** ** Validation inside [add_app_callback] *)

Inductive field : Type := Hours | Minutes | Seconds | Opens.

(** The error kinds of the validation, one per message of the callback. *)
Inductive error : Type :=
| EmptyNameError
| InvalidRangeError (f : field)
| NonIntegerError.

(** The text shown for each error: [html.Li(...)] in the callback. *)
Definition message (e : error) : string :=
  match e with
  | EmptyNameError => "Error: App name cannot be empty."
  | InvalidRangeError Hours => "Error: Hours must be between 0 and 24."
  | InvalidRangeError Minutes => "Error: Minutes must be between 0 and 59."
  | InvalidRangeError Seconds => "Error: Seconds must be between 0 and 59."
  | InvalidRangeError Opens => "Error: Opens must be a non-negative integer."
  | NonIntegerError =>
      "Error: Hours, minutes, seconds, and opens must be valid integers."
  end.

(** The text of a field known to be present. *)
Definition text_of (s : option string) : string := default "" s.

(** The four conversions at the head of the [try] block, in source order;
    [None] when one of them raises [ValueError]. *)
Definition convert (hours minutes seconds opens : Py.value)
    : option (Z * Z * Z * Z) :=
  h ← Py.int_or_zero hours;
  m ← Py.int_or_zero minutes;
  s ← Py.int_or_zero seconds;
  o ← Py.int_or_zero opens;
  Some (h, m, s, o).

(** The range tests that follow the conversions. *)
Definition check_ranges (h m s o : Z) : error + (Z * Z * Z * Z) :=
  if negb ((0 <=? h) && (h <=? 24)) then inl (InvalidRangeError Hours)
  else if negb ((0 <=? m) && (m <=? 59)) then inl (InvalidRangeError Minutes)
  else if negb ((0 <=? s) && (s <=? 59)) then inl (InvalidRangeError Seconds)
  else if o <? 0 then inl (InvalidRangeError Opens)
  else inr (h, m, s, o).

(** The checks of the "add" branch: the name test, then the [try] block
    (all conversions first, then the range tests), with the [except
    ValueError] handler.  On success the converted integers are returned. *)
Definition validate (app_name : option string)
    (hours minutes seconds opens : Py.value) : error + (Z * Z * Z * Z) :=
  if negb (Py.truthy app_name) then inl EmptyNameError
  else
    match convert hours minutes seconds opens with
    | None => inl NonIntegerError
    | Some (h, m, s, o) => check_ranges h m s o
    end.

(** ** The callbacks of [DigitalWellnessApp] *)

(** [ctx.triggered_id]: nothing, the "Add App" button, or the "Remove"
    button carrying [index]. *)
Inductive triggered_id : Type :=
| NoTrigger
| AddAppBtn
| RemoveAppBtn (index : Z).

(** What [add_app_callback] gives back to Dash. *)
Inductive response : Type :=
| PreventUpdate
| RaisedIndexError
| ErrorItem (msg : string)
| AppsList (items : list (Z * app_data)).

(** The list display: one item per entry, numbered by [enumerate]. *)
Definition render (self : DataManager) : response :=
  AppsList (imap (λ i app, (Z.of_nat i, app)) (get_apps_data self)).

Definition add_app_callback (add_clicks : Z) (remove_clicks : list Z)
    (triggered : triggered_id) (app_name : option string)
    (hours minutes seconds opens : Py.value) (self : DataManager)
    : response * DataManager :=
  match triggered with
  | NoTrigger => (PreventUpdate, self)
  | RemoveAppBtn index =>
      match PyList.getitem remove_clicks index with
      | None => (RaisedIndexError, self)
      | Some clicks =>
          let self' := if 0 <? clicks then remove_app index self else self in
          (render self', self')
      end
  | AddAppBtn =>
      if 0 <? add_clicks then
        match validate app_name hours minutes seconds opens with
        | inl e => (ErrorItem (message e), self)
        | inr (h, m, s, o) =>
            let self' := add_app (text_of app_name) h m s o self in
            (render self', self')
        end
      else (render self, self)
  end.

(** One call to the document store: [collection.insert_one(new_data)] on
    [client[database_name][collection_name]]. *)
Inductive store_call : Type :=
| InsertOne (database_name collection_name : string) (new_data : document).

Inductive submit_error : Type :=
| MissingCollectionError
| MissingDateError
| StoreWriteError (cause : string).

Definition submit_message (e : submit_error) : string :=
  match e with
  | MissingCollectionError => "Error: Please select a collection."
  | MissingDateError => "Error: Please enter a valid date."
  | StoreWriteError cause => "Error: " +:+ cause
  end.

(** What [submit_data_callback] gives back to Dash. *)
Inductive submit_response : Type :=
| SubmitPreventUpdate
| SubmitText (msg : string).

(** [store] is the document store as the callback sees it: [None] when
    the insert returns, [Some cause] when it raises an exception whose text
    is [cause].  The second component of the result lists the calls issued
    to the store; the data manager is only read. *)
Definition submit_data_callback (store : store_call → option string)
    (n_clicks : Z) (date_input collection_name : option string)
    (self : DataManager) : submit_response * list store_call :=
  if n_clicks =? 0 then (SubmitPreventUpdate, [])
  else if negb (Py.truthy collection_name)
  then (SubmitText (submit_message MissingCollectionError), [])
  else if negb (Py.truthy date_input)
  then (SubmitText (submit_message MissingDateError), [])
  else
    let new_data := prepare_submission_data (text_of date_input) self in
    let call :=
      InsertOne "digital_wellness" (text_of collection_name) new_data in
    match store call with
    | None => (SubmitText "Data submitted successfully!", [call])
    | Some cause => (SubmitText (submit_message (StoreWriteError cause)), [call])
    end.

(** ** A session: the data manager under a sequence of user actions *)

Inductive action : Type :=
| AddOrRemove (add_clicks : Z) (remove_clicks : list Z)
    (triggered : triggered_id) (app_name : option string)
    (hours minutes seconds opens : Py.value)
| Submit (store : store_call → option string) (n_clicks : Z)
    (date_input collection_name : option string).

(** The data manager after one callback has run. *)
Definition step (self : DataManager) (a : action) : DataManager :=
  match a with
  | AddOrRemove add_clicks remove_clicks triggered app_name
      hours minutes seconds opens =>
      (add_app_callback add_clicks remove_clicks triggered app_name
         hours minutes seconds opens self).2
  | Submit _ _ _ _ => self
  end.

(** The data manager after a whole session, started from [init]. *)
Definition run (actions : list action) : DataManager :=
  foldl step init actions.

(** ** Definitions that follow the specification's wording *)

(** "Sum over all entries" of an integer attribute. *)
Fixpoint spec_total (f : app_data → Z) (entries : list app_data) : Z :=
  match entries with
  | [] => 0
  | e :: rest => f e + spec_total f rest
  end.



(** The entry predicate of the session store. *)
Definition valid_entry (e : app_data) : Prop :=
  name e ≠ "" ∧ 0 ≤ screenTime e ≤ 89999 ∧ 0 ≤ opens e.

(** A numeric field that is either absent or holds the integer given. *)
Definition field_of (v : option Z) : Py.value :=
  match v with
  | None => Py.VNone
  | Some z => Py.VInt z
  end.

(** An absent field replaced by the integer zero. *)
Definition absent_as_zero (v : Py.value) : Py.value :=
  match v with
  | Py.VNone => Py.VInt 0
  | _ => v
  end.

(** ** The collection lister: class [MongoDBManager] *)

Module PyStr.

(** [s.endswith(suffix)]: [s] is [suffix], or what follows its first
    character ends with [suffix]. *)
Fixpoint endswith (s suffix : string) : bool :=
  String.eqb s suffix ||
  match s with
  | EmptyString => false
  | String _ s' => endswith s' suffix
  end.

(** [s.endswith((suffix1, suffix2, ...))]: one of the suffixes fits. *)
Definition endswith_any (s : string) (suffixes : list string) : bool :=
  existsb (endswith s) suffixes.

End PyStr.

(** [client database_name] is what [db.list_collection_names()] answers for
    [db = self.client[database_name]]. *)
Definition get_collection_names (client : string → list string)
    (database_name : string) : list string :=
  let db := client database_name in
  List.filter
    (λ name, negb (PyStr.endswith_any name [".chunks"; ".files"])) db.

(** The options of the collection dropdown in [LayoutManager.build_layout]:
    one pair (label, value) per usable collection. *)
Definition collection_options (client : string → list string)
    : list (string * string) :=
  map (λ name, (name, name)) (get_collection_names client "digital_wellness").

(** Whether a user action is a press on "Add App". *)
Definition is_add (a : action) : bool :=
  match a with
  | AddOrRemove _ _ AddAppBtn _ _ _ _ _ => true
  | _ => false
  end.

(** The value of the [apps] dictionary built from one entry. *)
Definition stats_of (e : app_data) : app_stats :=
  {| stats_screenTime := screenTime e; stats_opens := opens e |}.

(** The screen times held by an [apps] dictionary, added up. *)
Definition apps_screen_time (m : gmap string app_stats) : Z :=
  map_fold (λ _ st acc, stats_screenTime st + acc) 0 m.

(** ** The earlier form: [data_input_dashboard.py] *)

Module Dashboard.

(** One element of the global [apps_data]. *)
Record app_data : Type := AppData {
  name : string;
  screenTime : Z;
  notifications : Z;
  opens : Z
}.

Definition parse_screen_time (hours minutes : Z) : Z :=
  (hours * 3600) + (minutes * 60).

(** [v or 0] for a numeric field holding [None] or an [int]. *)
Definition or0 (v : option Z) : Z :=
  match v with
  | None => 0
  | Some z => Py.or0 z
  end.

Definition is_none (v : option Z) : bool :=
  match v with
  | None => true
  | Some _ => false
  end.

(** What the callback [add_app] gives back to Dash: the entries shown. *)
Inductive response : Type :=
| PreventUpdate
| Items (shown : list app_data).

(** The callback [add_app], for numeric fields that hold [None] or an
    [int]; the global list [apps_data] is threaded through. *)
Definition add_app (n_clicks : Z) (app_name : option string)
    (hours minutes notifications opens : option Z)
    (apps_data : list app_data) : response * list app_data :=
  if (n_clicks =? 0) || negb (Py.truthy app_name)
     || (is_none hours && is_none minutes)
  then (PreventUpdate, apps_data)
  else
    let screen_time_seconds := parse_screen_time (or0 hours) (or0 minutes) in
    let app :=
      {| name := text_of app_name;
         screenTime := screen_time_seconds;
         notifications := or0 notifications;
         opens := or0 opens |} in
    let apps_data' := apps_data ++ [app] in
    (Items apps_data', apps_data').

Record app_stats : Type := AppStats {
  stats_screenTime : Z;
  stats_notifications : Z;
  stats_opens : Z
}.

Record summary_data : Type := {
  summary_screenTime : Z;
  summary_notifications : Z;
  summary_unlocks : Z
}.

Record document : Type := {
  date : string;
  summary : summary_data;
  apps : gmap string app_stats
}.

Inductive store_call : Type :=
| InsertOne (database_name collection_name : string) (new_data : document).

Inductive submit_response : Type :=
| SubmitPreventUpdate
| SubmitText (msg : string).

(** The document assembled inside [update_collection]. *)
Definition new_data (date_input : string) (apps_data : list app_data)
    : document :=
  let total_screen_time_seconds := PyList.sum (map screenTime apps_data) in
  {| date := date_input;
     summary :=
       {| summary_screenTime := total_screen_time_seconds;
          summary_notifications := PyList.sum (map notifications apps_data);
          summary_unlocks := PyList.sum (map opens apps_data) |};
     apps :=
       PyList.dict
         (map (λ app, (name app,
                        {| stats_screenTime := screenTime app;
                           stats_notifications := notifications app;
                           stats_opens := opens app |}))
              apps_data) |}.

(** The callback [update_collection]; [store] answers the insert as in
    [submit_data_callback]. *)
Definition update_collection (store : store_call → option string)
    (n_clicks : Z) (date_input collection_name : option string)
    (apps_data : list app_data) : submit_response * list store_call :=
  if n_clicks =? 0 then (SubmitPreventUpdate, [])
  else if negb (Py.truthy collection_name)
  then (SubmitText "Error: Please select a collection.", [])
  else if negb (Py.truthy date_input)
  then (SubmitText "Error: Please enter a valid date.", [])
  else
    let call :=
      InsertOne "digital_wellness" (text_of collection_name)
        (new_data (text_of date_input) apps_data) in
    match store call with
    | None =>
        (SubmitText ("Success: Data inserted into " +:+
                     text_of collection_name +:+ "."), [call])
    | Some cause => (SubmitText ("Error: " +:+ cause), [call])
    end.

End Dashboard.

(** * Properties *)

(** Case analysis on every integer comparison of the goal. *)
Ltac case_bounds :=
  repeat match goal with
    | |- context [Z.leb ?a ?b] => destruct (Z.leb_spec a b)
    | |- context [Z.ltb ?a ?b] => destruct (Z.ltb_spec a b)
    end;
  simpl; try reflexivity; try lia.

(** ** The model of [int] on sample inputs *)

Example int_of_str_plain : Py.int_of_str " 25 " None = Some 25.
Proof. reflexivity. Qed.

Example int_of_str_signed : Py.int_of_str "-1_000" None = Some (-1000).
Proof. reflexivity. Qed.

Example int_of_str_empty : Py.int_of_str "" None = None.
Proof. reflexivity. Qed.

Example int_of_str_text : Py.int_of_str "abc" None = None.
Proof. reflexivity. Qed.

Example int_of_str_decimal : Py.int_of_str "1.5" None = None.
Proof. reflexivity. Qed.

Example int_of_float_truncates : Py.int_of_float (-3) (-1) = -1.
Proof. reflexivity. Qed.

Example int_of_str_separator :
  Py.int_of_str (String (ascii_of_nat 28) "5") None = None.
Proof. reflexivity. Qed.

Example int_of_str_beyond_ascii (result : option Z) :
  Py.int_of_str (String (ascii_of_nat 194) (String (ascii_of_nat 160) "12"))
    result = result.
Proof. reflexivity. Qed.

Example int_or_zero_nan : Py.int_or_zero Py.VNaN = None.
Proof. reflexivity. Qed.

(** ** Helper lemmas *)

Lemma or0_id (x : Z) : Py.or0 x = x.
Proof. unfold Py.or0. destruct (Z.eqb_spec x 0); congruence. Qed.

Lemma foldl_add_shift (xs : list Z) (acc : Z) :
  foldl Z.add acc xs = acc + foldl Z.add 0 xs.
Proof.
  revert acc. induction xs as [|x xs IH]; intros acc; simpl.
  - lia.
  - rewrite (IH (acc + x)), (IH (0 + x)). lia.
Qed.

Lemma sum_cons (x : Z) (xs : list Z) :
  PyList.sum (x :: xs) = x + PyList.sum xs.
Proof. unfold PyList.sum. simpl. apply foldl_add_shift. Qed.

Lemma sum_map_spec_total (f : app_data → Z) (entries : list app_data) :
  PyList.sum (map f entries) = spec_total f entries.
Proof.
  induction entries as [|e rest IH]; [reflexivity|].
  simpl map. rewrite sum_cons, IH. reflexivity.
Qed.

Lemma spec_total_nonneg (f : app_data → Z) (entries : list app_data) :
  Forall (λ e, 0 ≤ f e) entries → 0 ≤ spec_total f entries.
Proof. induction 1; simpl; lia. Qed.

Lemma add_app_entry (app_name : string) (h m s o : Z) (self : DataManager) :
  apps_data (add_app app_name h m s o self) =
  apps_data self ++ [AppData app_name (h * 3600 + m * 60 + s) o].
Proof.
  unfold add_app, parse_screen_time. simpl. by rewrite !or0_id.
Qed.

(** ** Screen time *)

(** C5: for hours in 0..24 and minutes and seconds in 0..59,
    [parse_screen_time] is [h * 3600 + m * 60 + s], and that is never
    negative. *)
Theorem parse_screen_time_value (h m s : Z) :
  0 ≤ h ≤ 24 → 0 ≤ m ≤ 59 → 0 ≤ s ≤ 59 →
  parse_screen_time h m s = h * 3600 + m * 60 + s ∧
  0 ≤ parse_screen_time h m s.
Proof. unfold parse_screen_time. lia. Qed.

Lemma parse_screen_time_value_witness :
  parse_screen_time 1 30 0 = 1 * 3600 + 30 * 60 + 0 ∧
  0 ≤ parse_screen_time 1 30 0.
Proof. apply (parse_screen_time_value 1 30 0); lia. Defined.

(** ** Appending *)

(** C8: two [add_app] calls in a row leave the earlier entries in place
    and put the two new entries after them, the first before the second. *)
Theorem add_app_twice_order (self : DataManager)
    (n1 n2 : string) (h1 m1 s1 o1 h2 m2 s2 o2 : Z) :
  get_apps_data (add_app n2 h2 m2 s2 o2 (add_app n1 h1 m1 s1 o1 self)) =
  get_apps_data self ++
    [AppData n1 (h1 * 3600 + m1 * 60 + s1) o1;
     AppData n2 (h2 * 3600 + m2 * 60 + s2) o2].
Proof.
  unfold get_apps_data. rewrite !add_app_entry, <- app_assoc. reflexivity.
Qed.

(** ** Removal by position *)

Lemma remove_app_out_of_range (index : Z) (self : DataManager) :
  ¬ (0 ≤ index < Z.of_nat (length (apps_data self))) →
  remove_app index self = self.
Proof.
  intros Hout. unfold remove_app.
  destruct (Z.leb_spec 0 index), (Z.ltb_spec index (Z.of_nat (length (apps_data self))));
    simpl; try reflexivity.
  lia.
Qed.

Lemma remove_app_in_range (index : Z) (self : DataManager) :
  0 ≤ index < Z.of_nat (length (apps_data self)) →
  apps_data (remove_app index self) =
  delete (Z.to_nat index) (apps_data self).
Proof.
  intros [Hlo Hhi]. unfold remove_app.
  apply Z.leb_le in Hlo. apply Z.ltb_lt in Hhi.
  rewrite Hlo, Hhi. reflexivity.
Qed.

(** C4: [remove_app] with an index outside [0 .. length - 1] changes
    nothing that [get_apps_data] returns; with an index inside, the
    entries before that position stay, the entry at it goes, and the
    entries after it move up by one. *)
Theorem remove_app_by_position (index : Z) (self : DataManager) :
  let before := get_apps_data self in
  let after := get_apps_data (remove_app index self) in
  (¬ (0 ≤ index < Z.of_nat (length before)) → after = before) ∧
  (0 ≤ index < Z.of_nat (length before) →
     after = take (Z.to_nat index) before ++ drop (S (Z.to_nat index)) before ∧
     S (length after) = length before ∧
     (∀ j : nat, (j < Z.to_nat index)%nat → after !! j = before !! j) ∧
     (∀ j : nat, (Z.to_nat index ≤ j)%nat → after !! j = before !! S j)).
Proof.
  unfold get_apps_data. simpl. split.
  - intros Hout. by rewrite remove_app_out_of_range.
  - intros Hin. rewrite remove_app_in_range by done.
    assert (Hlt : (Z.to_nat index < length (apps_data self))%nat) by lia.
    split; [by rewrite delete_take_drop|]. split.
    + rewrite length_delete; [lia|]. by apply lookup_lt_is_Some_2.
    + split; intros j Hj.
      * by apply list_lookup_delete_lt.
      * by apply list_lookup_delete_ge.
Qed.

Lemma remove_app_by_position_witness :
  get_apps_data (remove_app 5 (add_app "Mail" 0 10 0 2 init)) =
    get_apps_data (add_app "Mail" 0 10 0 2 init) ∧
  get_apps_data (remove_app 0 (add_app "Mail" 0 10 0 2 init)) = [].
Proof.
  split.
  - apply (proj1 (remove_app_by_position 5 (add_app "Mail" 0 10 0 2 init))).
    simpl. lia.
  - apply (proj2 (remove_app_by_position 0 (add_app "Mail" 0 10 0 2 init))).
    simpl. lia.
Defined.

(** ** The submitted document *)

(** C2: whatever the entries and the date, the summary of the document
    holds the sum of [screenTime] and the sum of [opens] over all current
    entries; three entries with screen times 10, 20, 30 and opens 1, 2, 3
    give 60 and 6. *)
Theorem summary_is_sum_of_entries (self : DataManager) (date_input : string) :
  let doc := prepare_submission_data date_input self in
  summary_screenTime (summary doc) = spec_total screenTime (get_apps_data self) ∧
  summary_unlocks (summary doc) = spec_total opens (get_apps_data self) ∧
  ∀ n1 n2 n3 : string,
    summary (prepare_submission_data date_input
               (add_app n3 0 0 30 3 (add_app n2 0 0 20 2
                  (add_app n1 0 0 10 1 init)))) =
    {| summary_screenTime := 60; summary_unlocks := 6 |}.
Proof.
  simpl. unfold get_apps_data. rewrite !sum_map_spec_total.
  repeat split.
Qed.

(** A submission that passes both guards issues exactly one insert, of
    the document built from the current entries. *)
Lemma submit_issues_document (store : store_call → option string)
    (n_clicks : Z) (date_input collection_name : string)
    (self : DataManager) :
  n_clicks ≠ 0 → date_input ≠ "" → collection_name ≠ "" →
  (submit_data_callback store n_clicks (Some date_input)
     (Some collection_name) self).2 =
  [InsertOne "digital_wellness" collection_name
     (prepare_submission_data date_input self)].
Proof.
  intros Hn Hd Hc. unfold submit_data_callback.
  destruct (Z.eqb_spec n_clicks 0); [done|].
  destruct date_input; [done|]. destruct collection_name; [done|].
  simpl. by destruct (store _).
Qed.

Lemma dict_snoc {V} (kvs : list (string * V)) (k : string) (v : V) :
  PyList.dict (kvs ++ [(k, v)]) = <[k := v]> (PyList.dict kvs).
Proof. unfold PyList.dict. by rewrite foldl_app. Qed.

(** Last write wins: an entry that no later entry shares its name with is
    the one found under that name. *)
Lemma apps_last_write_wins (date_input : string) (self : DataManager)
    (earlier later : list app_data) (e : app_data) :
  apps_data self = earlier ++ e :: later →
  Forall (λ e', name e' ≠ name e) later →
  apps (prepare_submission_data date_input self) !! name e =
  Some (AppStats (screenTime e) (opens e)).
Proof.
  unfold prepare_submission_data. simpl. intros ->.
  induction later as [|e' later IH] using rev_ind; intros Hlater.
  - rewrite (map_app _ earlier [e]). simpl map.
    rewrite dict_snoc. apply lookup_insert_eq.
  - apply Forall_app in Hlater as [Hlater Hne].
    rewrite Forall_singleton in Hne.
    replace (earlier ++ e :: later ++ [e'])
      with ((earlier ++ e :: later) ++ [e']) by by rewrite <- app_assoc.
    rewrite map_app. simpl map. rewrite dict_snoc.
    rewrite lookup_insert_ne by done. by apply IH.
Qed.

(** C1: with two entries named "Brave", of screen time 10 then 20, the
    document has [apps["Brave"].screenTime = 20] (the later entry replaced
    the earlier one) and [summary.screenTime = 30] (both are summed). *)
Theorem duplicate_name_overwrites_but_sums (date_input : string) (o1 o2 : Z) :
  let self := add_app "Brave" 0 0 20 o2 (add_app "Brave" 0 0 10 o1 init) in
  let doc := prepare_submission_data date_input self in
  get_apps_data self = [AppData "Brave" 10 o1; AppData "Brave" 20 o2] ∧
  stats_screenTime <$> apps doc !! "Brave" = Some 20 ∧
  summary_screenTime (summary doc) = 30.
Proof.
  intros self doc.
  assert (Hdata : apps_data self = [AppData "Brave" 10 o1; AppData "Brave" 20 o2]).
  { unfold self. rewrite !add_app_entry. reflexivity. }
  split; [exact Hdata|]. split.
  - pose proof (apps_last_write_wins date_input self
                  [AppData "Brave" 10 o1] [] (AppData "Brave" 20 o2)
                  Hdata (Forall_nil_2 _)) as Hlast.
    cbn [name screenTime opens] in Hlast.
    unfold doc. rewrite Hlast. reflexivity.
  - unfold doc, prepare_submission_data. cbn [summary summary_screenTime].
    rewrite Hdata. reflexivity.
Qed.

(** ** Validation *)

Lemma truthy_text (s : option string) :
  Py.truthy s = true → s = Some (text_of s) ∧ text_of s ≠ "".
Proof. by destruct s as [[|c s]|]. Qed.


Lemma convert_Some (hours minutes seconds opens : Py.value) (h m s o : Z) :
  convert hours minutes seconds opens = Some (h, m, s, o) ↔
  Py.int_or_zero hours = Some h ∧ Py.int_or_zero minutes = Some m ∧
  Py.int_or_zero seconds = Some s ∧ Py.int_or_zero opens = Some o.
Proof.
  unfold convert.
  destruct (Py.int_or_zero hours), (Py.int_or_zero minutes),
    (Py.int_or_zero seconds), (Py.int_or_zero opens); simpl;
    intuition congruence.
Qed.

Lemma convert_None (hours minutes seconds opens : Py.value) :
  convert hours minutes seconds opens = None ↔
  Py.int_or_zero hours = None ∨ Py.int_or_zero minutes = None ∨
  Py.int_or_zero seconds = None ∨ Py.int_or_zero opens = None.
Proof.
  unfold convert.
  destruct (Py.int_or_zero hours), (Py.int_or_zero minutes),
    (Py.int_or_zero seconds), (Py.int_or_zero opens); simpl;
    intuition congruence.
Qed.

Lemma validate_converted (app_name : option string)
    (hours minutes seconds opens : Py.value) (h m s o : Z) :
  Py.truthy app_name = true →
  convert hours minutes seconds opens = Some (h, m, s, o) →
  validate app_name hours minutes seconds opens = check_ranges h m s o.
Proof. intros Hname Hconv. unfold validate. by rewrite Hname, Hconv. Qed.

(** A successful validation returns the converted fields, all in range. *)
Lemma validate_inr (app_name : option string)
    (hours minutes seconds opens : Py.value) (h m s o : Z) :
  validate app_name hours minutes seconds opens = inr (h, m, s, o) →
  Py.truthy app_name = true ∧
  convert hours minutes seconds opens = Some (h, m, s, o) ∧
  0 ≤ h ≤ 24 ∧ 0 ≤ m ≤ 59 ∧ 0 ≤ s ≤ 59 ∧ 0 ≤ o.
Proof.
  unfold validate. destruct (Py.truthy app_name); simpl; [|done].
  destruct (convert hours minutes seconds opens) as [[[[h' m'] s'] o']|];
    [|done].
  unfold check_ranges.
  destruct (Z.leb_spec 0 h'), (Z.leb_spec h' 24); simpl; try done.
  destruct (Z.leb_spec 0 m'), (Z.leb_spec m' 59); simpl; try done.
  destruct (Z.leb_spec 0 s'), (Z.leb_spec s' 59); simpl; try done.
  destruct (Z.ltb_spec o' 0); simpl; try done.
  intros [= <- <- <- <-]. repeat split; lia.
Qed.




(** ** The "add" action *)

Lemma callback_add_rejected (add_clicks : Z) (remove_clicks : list Z)
    (app_name : option string) (hours minutes seconds opens : Py.value)
    (self : DataManager) (e : error) :
  0 < add_clicks →
  validate app_name hours minutes seconds opens = inl e →
  add_app_callback add_clicks remove_clicks AddAppBtn app_name
    hours minutes seconds opens self = (ErrorItem (message e), self).
Proof.
  intros Hclicks Hval. unfold add_app_callback.
  apply Z.ltb_lt in Hclicks. by rewrite Hclicks, Hval.
Qed.

Lemma callback_add_accepted (add_clicks : Z) (remove_clicks : list Z)
    (app_name : option string) (hours minutes seconds opens : Py.value)
    (self : DataManager) (h m s o : Z) :
  0 < add_clicks →
  validate app_name hours minutes seconds opens = inr (h, m, s, o) →
  add_app_callback add_clicks remove_clicks AddAppBtn app_name
    hours minutes seconds opens self =
  let self' := add_app (text_of app_name) h m s o self in
  (render self', self').
Proof.
  intros Hclicks Hval. unfold add_app_callback.
  apply Z.ltb_lt in Hclicks. by rewrite Hclicks, Hval.
Qed.

(** C7: an "add" whose fields fail validation leaves the data manager as
    it was, and the callback answers with the message of that error; this
    covers hours = 25, rejected with the hours range error when the name is
    present and the other fields convert to integers. *)
Theorem rejected_add_keeps_store (add_clicks : Z) (remove_clicks : list Z)
    (app_name : option string) (hours minutes seconds opens : Py.value)
    (self : DataManager) (e : error) :
  validate app_name hours minutes seconds opens = inl e →
  let result :=
    add_app_callback add_clicks remove_clicks AddAppBtn app_name
      hours minutes seconds opens self in
  result.2 = self ∧
  get_apps_data result.2 = get_apps_data self ∧
  (0 < add_clicks → result.1 = ErrorItem (message e)) ∧
  (Py.truthy app_name = true → Py.int_or_zero hours = Some 25 →
   is_Some (Py.int_or_zero minutes) → is_Some (Py.int_or_zero seconds) →
   is_Some (Py.int_or_zero opens) → e = InvalidRangeError Hours).
Proof.
  intros Hval result. unfold result.
  assert (Hstore : (add_app_callback add_clicks remove_clicks AddAppBtn
                      app_name hours minutes seconds opens self).2 = self).
  { unfold add_app_callback. rewrite Hval. by destruct (0 <? add_clicks). }
  split; [exact Hstore|]. split; [by rewrite Hstore|]. split.
  - intros Hclicks. by rewrite (callback_add_rejected _ _ _ _ _ _ _ _ e).
  - intros Hname Hh [m Hm] [s Hs] [o Ho]. revert Hval.
    rewrite (validate_converted _ _ _ _ _ 25 m s o);
      [| done | by apply convert_Some].
    unfold check_ranges. simpl. congruence.
Qed.

Lemma rejected_add_keeps_store_witness :
  (add_app_callback 1 [] AddAppBtn (Some "Brave")
     (Py.VInt 25) Py.VNone Py.VNone Py.VNone
     (add_app "Mail" 0 10 0 2 init)).2 = add_app "Mail" 0 10 0 2 init.
Proof.
  apply (rejected_add_keeps_store 1 [] (Some "Brave")
           (Py.VInt 25) Py.VNone Py.VNone Py.VNone
           (add_app "Mail" 0 10 0 2 init) (InvalidRangeError Hours)).
  reflexivity.
Defined.

(** C9: a numeric field left empty is validated exactly as the integer
    zero would be.  With a name present, and every numeric field either
    empty or an integer in range, the add succeeds and appends one entry
    whose screen time counts the fields present and zero for the others;
    with the name alone the entry has screen time 0 and 0 opens. *)
Theorem absent_fields_count_as_zero (add_clicks : Z) (remove_clicks : list Z)
    (app_name : option string) (self : DataManager) :
  0 < add_clicks → Py.truthy app_name = true →
  (∀ hours minutes seconds opens : Py.value,
     validate app_name hours minutes seconds opens =
     validate app_name (absent_as_zero hours) (absent_as_zero minutes)
       (absent_as_zero seconds) (absent_as_zero opens)) ∧
  (∀ h m s o : option Z,
     0 ≤ default 0 h ≤ 24 → 0 ≤ default 0 m ≤ 59 →
     0 ≤ default 0 s ≤ 59 → 0 ≤ default 0 o →
     validate app_name (field_of h) (field_of m) (field_of s) (field_of o) =
       inr (default 0 h, default 0 m, default 0 s, default 0 o) ∧
     get_apps_data
       (add_app_callback add_clicks remove_clicks AddAppBtn app_name
          (field_of h) (field_of m) (field_of s) (field_of o) self).2 =
     get_apps_data self ++
       [AppData (text_of app_name)
          (default 0 h * 3600 + default 0 m * 60 + default 0 s)
          (default 0 o)]) ∧
  get_apps_data
    (add_app_callback add_clicks remove_clicks AddAppBtn app_name
       Py.VNone Py.VNone Py.VNone Py.VNone self).2 =
  get_apps_data self ++ [AppData (text_of app_name) 0 0].
Proof.
  intros Hclicks Hname.
  assert (Hpresent : ∀ h m s o : option Z,
     0 ≤ default 0 h ≤ 24 → 0 ≤ default 0 m ≤ 59 →
     0 ≤ default 0 s ≤ 59 → 0 ≤ default 0 o →
     validate app_name (field_of h) (field_of m) (field_of s) (field_of o) =
       inr (default 0 h, default 0 m, default 0 s, default 0 o)).
  { intros h m s o Hh Hm Hs Ho.
    rewrite (validate_converted _ _ _ _ _ (default 0 h) (default 0 m)
               (default 0 s) (default 0 o)); [| done |].
    - unfold check_ranges. case_bounds.
    - by destruct h, m, s, o. }
  assert (Hadd : ∀ h m s o : option Z,
     0 ≤ default 0 h ≤ 24 → 0 ≤ default 0 m ≤ 59 →
     0 ≤ default 0 s ≤ 59 → 0 ≤ default 0 o →
     get_apps_data
       (add_app_callback add_clicks remove_clicks AddAppBtn app_name
          (field_of h) (field_of m) (field_of s) (field_of o) self).2 =
     get_apps_data self ++
       [AppData (text_of app_name)
          (default 0 h * 3600 + default 0 m * 60 + default 0 s)
          (default 0 o)]).
  { intros h m s o Hh Hm Hs Ho.
    rewrite (callback_add_accepted _ _ _ _ _ _ _ _ (default 0 h) (default 0 m)
               (default 0 s) (default 0 o)) by auto.
    unfold get_apps_data. simpl. apply add_app_entry. }
  split; [|split].
  - intros hours minutes seconds opens. unfold validate, convert.
    by destruct hours, minutes, seconds, opens.
  - intros h m s o Hh Hm Hs Ho. split; [by apply Hpresent | by apply Hadd].
  - apply (Hadd None None None None); simpl; lia.
Qed.

Lemma absent_fields_count_as_zero_witness :
  get_apps_data
    (add_app_callback 1 [] AddAppBtn (Some "Brave")
       Py.VNone Py.VNone Py.VNone Py.VNone init).2 =
  get_apps_data init ++ [AppData "Brave" 0 0].
Proof.
  apply (absent_fields_count_as_zero 1 [] (Some "Brave") init).
  - lia.
  - reflexivity.
Defined.

(** ** Submission *)

(** An empty date with no collection selected: the collection guard,
    which comes first, gives the answer. *)
Lemma submit_without_date_counterexample :
  submit_data_callback (λ _, None) 1 (Some "") None
    (add_app "Mail" 0 10 0 2 init) =
    (SubmitText "Error: Please select a collection.", []) ∧
  (submit_data_callback (λ _, None) 1 (Some "") None
     (add_app "Mail" 0 10 0 2 init)).1 ≠
    SubmitText (submit_message MissingDateError).
Proof. split; [reflexivity | discriminate]. Qed.

(** C6, as the code has it: a submission whose date is empty or absent
    issues no call to the document store, whatever the data manager
    holds; its answer is the missing-date error when a collection is
    selected, and the missing-collection error when none is, the
    collection being tested before the date. *)
Theorem submit_without_date (store : store_call → option string)
    (n_clicks : Z) (date_input collection_name : option string)
    (self : DataManager) :
  Py.truthy date_input = false →
  let result :=
    submit_data_callback store n_clicks date_input collection_name self in
  result.2 = [] ∧
  (n_clicks ≠ 0 → Py.truthy collection_name = true →
   result.1 = SubmitText (submit_message MissingDateError)) ∧
  (n_clicks ≠ 0 → Py.truthy collection_name = false →
   result.1 = SubmitText (submit_message MissingCollectionError)).
Proof.
  intros Hdate result. unfold result, submit_data_callback.
  rewrite Hdate. simpl.
  destruct (Z.eqb_spec n_clicks 0), (Py.truthy collection_name);
    simpl; repeat split; intros; congruence.
Qed.

Lemma submit_without_date_witness :
  submit_data_callback (λ _, None) 1 (Some "") (Some "user1")
    (add_app "Mail" 0 10 0 2 init) =
  (SubmitText "Error: Please enter a valid date.", []).
Proof.
  pose proof (submit_without_date (λ _, None) 1 (Some "") (Some "user1")
                (add_app "Mail" 0 10 0 2 init) eq_refl)
    as (Hcalls & Htext & _).
  rewrite (surjective_pairing (submit_data_callback _ _ _ _ _)).
  rewrite Hcalls, Htext; [reflexivity | lia | reflexivity].
Defined.

(** ** The entries of a session *)

Lemma add_app_valid (app_name : string) (h m s o : Z) (self : DataManager) :
  app_name ≠ "" → 0 ≤ h ≤ 24 → 0 ≤ m ≤ 59 → 0 ≤ s ≤ 59 → 0 ≤ o →
  Forall valid_entry (apps_data self) →
  Forall valid_entry (apps_data (add_app app_name h m s o self)).
Proof.
  intros Hname Hh Hm Hs Ho Hall. rewrite add_app_entry.
  apply Forall_app. split; [done|].
  apply Forall_singleton. unfold valid_entry. simpl. repeat split; (done || lia).
Qed.

Lemma remove_app_valid (index : Z) (self : DataManager) :
  Forall valid_entry (apps_data self) →
  Forall valid_entry (apps_data (remove_app index self)).
Proof.
  intros Hall. unfold remove_app.
  destruct (_ && _); [|done]. simpl. by apply Forall_delete.
Qed.

Lemma callback_valid (add_clicks : Z) (remove_clicks : list Z)
    (triggered : triggered_id) (app_name : option string)
    (hours minutes seconds opens : Py.value) (self : DataManager) :
  Forall valid_entry (apps_data self) →
  Forall valid_entry
    (apps_data (add_app_callback add_clicks remove_clicks triggered app_name
                  hours minutes seconds opens self).2).
Proof.
  intros Hall. unfold add_app_callback. destruct triggered as [| |index].
  - done.
  - destruct (0 <? add_clicks); [|done].
    destruct (validate app_name hours minutes seconds opens)
      as [e|[[[h m] s] o]] eqn:Hval; [done|].
    apply validate_inr in Hval as (Hname & _ & Hh & Hm & Hs & Ho).
    apply truthy_text in Hname as [_ Hname]. simpl.
    by apply add_app_valid.
  - destruct (PyList.getitem remove_clicks index) as [clicks|]; [|done].
    simpl. destruct (0 <? clicks); [|done]. by apply remove_app_valid.
Qed.

Lemma step_valid (self : DataManager) (a : action) :
  Forall valid_entry (apps_data self) →
  Forall valid_entry (apps_data (step self a)).
Proof. destruct a; simpl; [apply callback_valid | done]. Qed.

Lemma foldl_step_valid (actions : list action) (self : DataManager) :
  Forall valid_entry (apps_data self) →
  Forall valid_entry (apps_data (foldl step self actions)).
Proof.
  revert self. induction actions as [|a actions IH]; intros self Hall.
  - done.
  - simpl. by apply IH, step_valid.
Qed.

Lemma valid_summary_nonneg (date_input : string) (self : DataManager) :
  Forall valid_entry (apps_data self) →
  0 ≤ summary_screenTime (summary (prepare_submission_data date_input self)) ∧
  0 ≤ summary_unlocks (summary (prepare_submission_data date_input self)).
Proof.
  intros Hall. simpl. rewrite !sum_map_spec_total.
  split; apply spec_total_nonneg; eapply Forall_impl; try exact Hall;
    unfold valid_entry; simpl; intros e He; lia.
Qed.

(** C10: every entry of a data manager reached from [init] through the
    callbacks has a non-empty name, a screen time between 0 and 89999 =
    24 * 3600 + 59 * 60 + 59, and non-negative opens; each callback keeps
    that property, and both totals of any document built from such a data
    manager are non-negative. *)
Theorem session_entries_valid (actions : list action) :
  24 * 3600 + 59 * 60 + 59 = 89999 ∧
  (∀ (self : DataManager) (a : action),
     Forall valid_entry (apps_data self) →
     Forall valid_entry (apps_data (step self a))) ∧
  Forall valid_entry (get_apps_data (run actions)) ∧
  (∀ date_input : string,
     let doc := prepare_submission_data date_input (run actions) in
     0 ≤ summary_screenTime (summary doc) ∧
     0 ≤ summary_unlocks (summary doc)).
Proof.
  assert (Hrun : Forall valid_entry (apps_data (run actions))).
  { apply foldl_step_valid. constructor. }
  split; [reflexivity|]. split; [apply step_valid|]. split; [exact Hrun|].
  intros date_input. by apply valid_summary_nonneg.
Qed.

Lemma session_entries_valid_witness :
  Forall valid_entry
    (get_apps_data
       (step (run [AddOrRemove 1 [] AddAppBtn (Some "Brave")
                     (Py.VInt 24) (Py.VInt 59) (Py.VInt 59) Py.VNone])
             (AddOrRemove 1 [1] (RemoveAppBtn 0) None
                Py.VNone Py.VNone Py.VNone Py.VNone))).
Proof.
  apply (session_entries_valid
           [AddOrRemove 1 [] AddAppBtn (Some "Brave")
              (Py.VInt 24) (Py.VInt 59) (Py.VInt 59) Py.VNone]).
  apply (session_entries_valid
           [AddOrRemove 1 [] AddAppBtn (Some "Brave")
              (Py.VInt 24) (Py.VInt 59) (Py.VInt 59) Py.VNone]).
Defined.

(** ** A whole session *)

(** Two adds followed by a submission: the store receives one insert, of
    the document with both entries and their totals. *)
Example end_to_end_session :
  let self :=
    run [AddOrRemove 1 [] AddAppBtn (Some "Brave")
           (Py.VInt 1) (Py.VInt 30) (Py.VInt 0) (Py.VInt 5);
         AddOrRemove 2 [0] AddAppBtn (Some "Mail")
           (Py.VInt 0) (Py.VInt 10) (Py.VInt 0) (Py.VInt 2)] in
  get_apps_data self = [AppData "Brave" 5400 5; AppData "Mail" 600 2] ∧
  submit_data_callback (λ _, None) 1 (Some "2024-01-01") (Some "user1") self =
  (SubmitText "Data submitted successfully!",
   [InsertOne "digital_wellness" "user1"
      {| date := "2024-01-01";
         summary := {| summary_screenTime := 6000; summary_unlocks := 7 |};
         apps := <["Mail" := AppStats 600 2]>
                   (<["Brave" := AppStats 5400 5]> ∅) |}]).
Proof. split; reflexivity. Qed.

(** * Further properties of the code *)

(** ** Listing the collections *)

Lemma endswith_spec (s suffix : string) :
  PyStr.endswith s suffix = true ↔ ∃ p : string, s = p +:+ suffix.
Proof.
  induction s as [|c s IH].
  - change (PyStr.endswith "" suffix) with (String.eqb "" suffix || false).
    rewrite orb_false_r, String.eqb_eq. split.
    + intros <-. by exists "".
    + intros [[|c p] Hp]; simpl in Hp; [done | discriminate].
  - change (PyStr.endswith (String c s) suffix)
      with (String.eqb (String c s) suffix || PyStr.endswith s suffix).
    rewrite orb_true_iff, String.eqb_eq, IH. split.
    + intros [<- | [p ->]]; [by exists "" | by exists (String c p)].
    + intros [[|c' p] Hp]; simpl in Hp; [by left|].
      injection Hp as -> ->. right. by exists p.
Qed.

Lemma usable_name_spec (name : string) :
  negb (PyStr.endswith_any name [".chunks"; ".files"]) = true ↔
  ¬ (∃ p : string, name = p +:+ ".chunks") ∧
  ¬ (∃ p : string, name = p +:+ ".files").
Proof.
  unfold PyStr.endswith_any. simpl. rewrite orb_false_r.
  rewrite negb_true_iff, orb_false_iff, <- !not_true_iff_false.
  by rewrite !endswith_spec.
Qed.

(** X1: a name is returned by [get_collection_names] exactly when the
    database lists it and it ends neither in ".chunks" nor in ".files". *)
Theorem get_collection_names_membership (client : string → list string)
    (database_name name : string) :
  name ∈ get_collection_names client database_name ↔
  name ∈ client database_name ∧
  ¬ (∃ p : string, name = p +:+ ".chunks") ∧
  ¬ (∃ p : string, name = p +:+ ".files").
Proof.
  unfold get_collection_names. cbv zeta.
  rewrite !list_elem_of_In, filter_In. cbv beta.
  by rewrite usable_name_spec.
Qed.

Lemma list_filter_sublist {A} (keep : A → bool) (xs : list A) :
  sublist (List.filter keep xs) xs.
Proof.
  induction xs as [|x xs IH]; simpl; [constructor|].
  destruct (keep x); by constructor.
Qed.

Lemma list_filter_all {A} (keep : A → bool) (xs : list A) :
  Forall (λ x, keep x = true) xs → List.filter keep xs = xs.
Proof.
  induction 1 as [|x xs Hx _ IH]; simpl; [done|]. by rewrite Hx, IH.
Qed.

(** X2: the names returned keep the order and multiplicity they have in
    the database's listing (nothing is added or reordered), and listing
    the result again returns it unchanged. *)
Theorem get_collection_names_stable (client : string → list string)
    (database_name : string) :
  let names := get_collection_names client database_name in
  sublist names (client database_name) ∧
  (∀ other : string, get_collection_names (λ _, names) other = names).
Proof.
  unfold get_collection_names. cbv zeta. split.
  - apply list_filter_sublist.
  - intros _. apply list_filter_all, Forall_forall.
    intros name Hin%list_elem_of_In%filter_In. apply Hin.
Qed.

(** X3: the dropdown offers each usable collection with its own name as
    label and as value, and a submission made with one of the offered
    (non-empty) values, a date and a click, issues one insert into database
    "digital_wellness" and into that collection, which the store lists and
    which is not a ".chunks" or ".files" collection. *)
Theorem submit_targets_offered_collection (client : string → list string)
    (store : store_call → option string) (n_clicks : Z)
    (date_input label collection_name : string) (self : DataManager) :
  (label, collection_name) ∈ collection_options client →
  collection_name ≠ "" → n_clicks ≠ 0 → date_input ≠ "" →
  label = collection_name ∧
  collection_name ∈ client "digital_wellness" ∧
  ¬ (∃ p : string, collection_name = p +:+ ".chunks") ∧
  ¬ (∃ p : string, collection_name = p +:+ ".files") ∧
  (submit_data_callback store n_clicks (Some date_input)
     (Some collection_name) self).2 =
  [InsertOne "digital_wellness" collection_name
     (prepare_submission_data date_input self)].
Proof.
  intros Hopt Hc Hn Hd. unfold collection_options in Hopt.
  apply list_elem_of_fmap in Hopt as (name & [= -> ->] & Hname).
  unfold get_collection_names in Hname. cbv zeta in Hname.
  rewrite list_elem_of_In, filter_In in Hname. cbv beta in Hname.
  rewrite usable_name_spec in Hname.
  destruct Hname as (Hlisted%list_elem_of_In & Hchunks & Hfiles).
  repeat split; try done.
  by apply submit_issues_document.
Qed.

Lemma submit_targets_offered_collection_witness :
  (submit_data_callback (λ _, None) 1 (Some "2024-01-01") (Some "user1")
     init).2 =
  [InsertOne "digital_wellness" "user1"
     (prepare_submission_data "2024-01-01" init)].
Proof.
  apply (submit_targets_offered_collection
           (λ _, ["user1"; "fs.files"; "fs.chunks"]) (λ _, None) 1
           "2024-01-01" "user1" "user1" init).
  - unfold collection_options, get_collection_names. simpl.
    apply list_elem_of_here.
  - discriminate.
  - lia.
  - discriminate.
Defined.

(** ** More on the session store *)

Lemma DataManager_eq (self other : DataManager) :
  apps_data self = apps_data other → self = other.
Proof. destruct self, other. simpl. by intros ->. Qed.

(** X4: removing at the position of the entry just added undoes the add:
    the data manager is back to what it was. *)
Theorem remove_undoes_add (app_name : string) (h m s o : Z)
    (self : DataManager) :
  remove_app (Z.of_nat (length (get_apps_data self)))
    (add_app app_name h m s o self) = self.
Proof.
  unfold get_apps_data. apply DataManager_eq.
  rewrite remove_app_in_range.
  - rewrite add_app_entry, Nat2Z.id. by rewrite delete_middle, app_nil_r.
  - rewrite add_app_entry, length_app. simpl. lia.
Qed.

(** X5: removing one of the earlier entries and adding a new one can be
    done in either order. *)
Theorem remove_add_commute (index : Z) (app_name : string) (h m s o : Z)
    (self : DataManager) :
  index < Z.of_nat (length (get_apps_data self)) →
  remove_app index (add_app app_name h m s o self) =
  add_app app_name h m s o (remove_app index self).
Proof.
  unfold get_apps_data. intros Hlt. apply DataManager_eq.
  destruct (Z.le_gt_cases 0 index) as [Hpos | Hneg].
  - rewrite remove_app_in_range
      by (rewrite add_app_entry, length_app; simpl; lia).
    rewrite !add_app_entry, remove_app_in_range by lia.
    rewrite !delete_take_drop.
    rewrite take_app_le, drop_app_le by lia. by rewrite <- app_assoc.
  - rewrite !add_app_entry.
    rewrite !remove_app_out_of_range by lia. by rewrite add_app_entry.
Qed.

Lemma remove_add_commute_witness :
  remove_app 0 (add_app "Mail" 0 10 0 2 (add_app "Brave" 1 30 0 5 init)) =
  add_app "Mail" 0 10 0 2 (remove_app 0 (add_app "Brave" 1 30 0 5 init)).
Proof.
  apply (remove_add_commute 0 "Mail" 0 10 0 2 (add_app "Brave" 1 30 0 5 init)).
  simpl. lia.
Defined.

(** X6: whatever the index, [remove_app] keeps the remaining entries in
    their order, adds none, and drops at most one. *)
Theorem remove_app_sublist (index : Z) (self : DataManager) :
  let before := get_apps_data self in
  let after := get_apps_data (remove_app index self) in
  sublist after before ∧
  (length before ≤ S (length after))%nat.
Proof.
  unfold get_apps_data. simpl. unfold remove_app.
  destruct (Z.leb_spec 0 index), (Z.ltb_spec index (Z.of_nat (length (apps_data self))));
    simpl; try (split; [reflexivity | lia]).
  split; [apply sublist_delete|].
  rewrite length_delete; [lia|]. apply lookup_lt_is_Some_2. lia.
Qed.

(** ** More on the submitted document *)

Lemma dict_nil {V} : PyList.dict ([] : list (string * V)) = ∅.
Proof. reflexivity. Qed.

(** X7: looking a name up in [apps] gives the values of the last entry
    carrying that name, and nothing when no entry carries it. *)
Theorem apps_lookup_last (date_input : string) (self : DataManager)
    (n : string) :
  apps (prepare_submission_data date_input self) !! n =
  stats_of <$> last (filter (λ e, name e = n) (get_apps_data self)).
Proof.
  unfold prepare_submission_data, get_apps_data. cbn [apps].
  induction (apps_data self) as [|e entries IH] using rev_ind.
  - reflexivity.
  - rewrite map_app. simpl map. rewrite dict_snoc, filter_app.
    destruct (decide (name e = n)) as [<- | Hne].
    + rewrite lookup_insert_eq, filter_cons_True by done.
      by rewrite filter_nil, last_snoc.
    + rewrite lookup_insert_ne, filter_cons_False by done.
      by rewrite filter_nil, app_nil_r.
Qed.

Lemma dom_dict {V} (kvs : list (string * V)) :
  dom (PyList.dict kvs) = (list_to_set (map fst kvs) : gset string).
Proof.
  induction kvs as [|[k v] kvs IH] using rev_ind; [by rewrite dict_nil, dom_empty_L|].
  rewrite dict_snoc, dom_insert_L, IH, map_app, list_to_set_app_L.
  simpl. rewrite (right_id_L ∅ (∪)). apply (comm_L (∪)).
Qed.

Lemma size_list_to_set_le (names : list string) :
  (size (list_to_set names : gset string) ≤ length names)%nat.
Proof.
  induction names as [|x names IH]; [done|].
  rewrite list_to_set_cons. simpl length.
  destruct (decide (x ∈ (list_to_set names : gset string))) as [Hin | Hout].
  - rewrite (subseteq_union_1_L {[x]} (list_to_set names));
      [lia | by apply singleton_subseteq_l].
  - rewrite size_union by by apply disjoint_singleton_l.
    rewrite size_singleton. lia.
Qed.

Lemma size_list_to_set_NoDup (names : list string) :
  size (list_to_set names : gset string) = length names ↔ NoDup names.
Proof.
  split; [|apply size_list_to_set].
  induction names as [|x names IH]; intros Hsize; [constructor|].
  rewrite list_to_set_cons in Hsize. simpl length in Hsize.
  pose proof (size_list_to_set_le names) as Hle.
  destruct (decide (x ∈ (list_to_set names : gset string))) as [Hin | Hout].
  - rewrite (subseteq_union_1_L {[x]} (list_to_set names)) in Hsize;
      [lia | by apply singleton_subseteq_l].
  - rewrite size_union, size_singleton in Hsize
      by by apply disjoint_singleton_l.
    constructor; [|apply IH; lia].
    intros Hin. apply Hout. by apply elem_of_list_to_set.
Qed.

(** X8: the keys of [apps] are exactly the names present in the store, so
    [apps] never has more items than the store has entries, and it has as
    many exactly when no two entries share a name. *)
Theorem apps_keys_and_size (date_input : string) (self : DataManager) :
  let doc := prepare_submission_data date_input self in
  let names := map name (get_apps_data self) in
  dom (apps doc) = list_to_set names ∧
  (size (apps doc) ≤ length (get_apps_data self))%nat ∧
  (size (apps doc) = length (get_apps_data self) ↔ NoDup names).
Proof.
  unfold prepare_submission_data, get_apps_data. simpl.
  assert (Hdom : dom (PyList.dict
                        (map (λ app, (name app,
                                      {| stats_screenTime := screenTime app;
                                         stats_opens := opens app |}))
                             (apps_data self)))
                 = (list_to_set (map name (apps_data self)) : gset string)).
  { rewrite dom_dict, map_map. reflexivity. }
  split; [exact Hdom|].
  rewrite <- size_dom, Hdom, <- (length_map name (apps_data self)).
  split; [apply size_list_to_set_le | apply size_list_to_set_NoDup].
Qed.

(** ** More on [add_app_callback] *)

Lemma add_app_length (app_name : string) (h m s o : Z) (self : DataManager) :
  length (apps_data (add_app app_name h m s o self)) =
  S (length (apps_data self)).
Proof. rewrite add_app_entry, length_app. simpl. lia. Qed.

Lemma remove_app_length (index : Z) (self : DataManager) :
  0 ≤ index < Z.of_nat (length (apps_data self)) →
  S (length (apps_data (remove_app index self))) = length (apps_data self).
Proof.
  intros Hin. rewrite remove_app_in_range by done.
  rewrite length_delete; [lia|]. apply lookup_lt_is_Some_2. lia.
Qed.

Lemma length_differs (self other : DataManager) :
  length (apps_data self) ≠ length (apps_data other) → self ≠ other.
Proof. intros Hlen ->. by apply Hlen. Qed.

(** X9: one run of [add_app_callback] changes the data manager in two
    cases only: an "Add App" press with a positive click count whose
    fields pass validation, or a "Remove" press whose click count is
    positive and whose index is a position of the store. *)
Theorem callback_changes_store_iff (add_clicks : Z) (remove_clicks : list Z)
    (triggered : triggered_id) (app_name : option string)
    (hours minutes seconds opens : Py.value) (self : DataManager) :
  (add_app_callback add_clicks remove_clicks triggered app_name
     hours minutes seconds opens self).2 ≠ self ↔
  (triggered = AddAppBtn ∧ 0 < add_clicks ∧
   ∃ fields, validate app_name hours minutes seconds opens = inr fields) ∨
  (∃ index clicks : Z,
     triggered = RemoveAppBtn index ∧
     PyList.getitem remove_clicks index = Some clicks ∧ 0 < clicks ∧
     0 ≤ index < Z.of_nat (length (get_apps_data self))).
Proof.
  unfold add_app_callback, get_apps_data. destruct triggered as [| |index].
  - simpl. split; [done|]. intros [(? & _) | (? & ? & ? & _)]; done.
  - destruct (Z.ltb_spec 0 add_clicks) as [Hpos | Hneg].
    + destruct (validate app_name hours minutes seconds opens)
        as [e | [[[h m] s] o]]; simpl.
      * split; [done|].
        intros [(_ & _ & ? & ?) | (? & ? & ? & _)]; done.
      * split; [|intros _; apply length_differs; rewrite add_app_length; lia].
        intros _. left. eauto.
    + simpl. split; [done|].
      intros [(_ & ? & _) | (? & ? & ? & _)]; [lia | done].
  - destruct (PyList.getitem remove_clicks index) as [clicks|] eqn:Hget; simpl.
    + destruct (Z.ltb_spec 0 clicks) as [Hpos | Hneg].
      * destruct (decide (0 ≤ index < Z.of_nat (length (apps_data self))))
          as [Hin | Hout].
        -- split; [intros _; right; eauto 10|].
           intros _. apply length_differs.
           pose proof (remove_app_length index self Hin). lia.
        -- rewrite remove_app_out_of_range by done. split; [done|].
           intros [(? & _) | (i & c & [= <-] & _ & _ & ?)]; done.
      * split; [done|].
        intros [(? & _) | (i & c & [= <-] & Hc & ? & _)]; [done|].
        rewrite Hget in Hc. injection Hc as <-. lia.
    + split; [done|].
      intros [(? & _) | (i & c & [= <-] & Hc & _)]; [done|].
      by rewrite Hget in Hc.
Qed.

(** X10: the list shown numbers the entries by their position, so the
    "Remove" button shown with an entry, once pressed (positive click
    count), removes that very entry and no other. *)
Theorem shown_remove_button_removes_its_entry (add_clicks : Z)
    (remove_clicks : list Z) (app_name : option string)
    (hours minutes seconds opens : Py.value) (self : DataManager)
    (items : list (Z * app_data)) (index clicks : Z) (e : app_data) :
  render self = AppsList items →
  (index, e) ∈ items →
  PyList.getitem remove_clicks index = Some clicks → 0 < clicks →
  ∃ i : nat,
    index = Z.of_nat i ∧
    get_apps_data self !! i = Some e ∧
    get_apps_data
      (add_app_callback add_clicks remove_clicks (RemoveAppBtn index)
         app_name hours minutes seconds opens self).2 =
    take i (get_apps_data self) ++ drop (S i) (get_apps_data self).
Proof.
  unfold render, get_apps_data. intros [= <-] Hshown Hget Hpos.
  apply elem_of_lookup_imap in Hshown as (i & e' & [= -> ->] & Hi).
  exists i. split; [done|]. split; [done|].
  unfold add_app_callback. rewrite Hget. apply Z.ltb_lt in Hpos.
  rewrite Hpos. simpl.
  apply lookup_lt_Some in Hi.
  rewrite remove_app_in_range by lia.
  by rewrite Nat2Z.id, delete_take_drop.
Qed.

Lemma shown_remove_button_removes_its_entry_witness :
  ∃ i : nat,
    1 = Z.of_nat i ∧
    get_apps_data (add_app "Mail" 0 10 0 2 (add_app "Brave" 1 30 0 5 init))
      !! i = Some (AppData "Mail" 600 2) ∧
    get_apps_data
      (add_app_callback 2 [0; 1] (RemoveAppBtn 1) None
         Py.VNone Py.VNone Py.VNone Py.VNone
         (add_app "Mail" 0 10 0 2 (add_app "Brave" 1 30 0 5 init))).2 =
    take i (get_apps_data
              (add_app "Mail" 0 10 0 2 (add_app "Brave" 1 30 0 5 init))) ++
    drop (S i) (get_apps_data
              (add_app "Mail" 0 10 0 2 (add_app "Brave" 1 30 0 5 init))).
Proof.
  apply (shown_remove_button_removes_its_entry 2 [0; 1] None
           Py.VNone Py.VNone Py.VNone Py.VNone
           (add_app "Mail" 0 10 0 2 (add_app "Brave" 1 30 0 5 init))
           [(0, AppData "Brave" 5400 5); (1, AppData "Mail" 600 2)]
           1 1 (AppData "Mail" 600 2)).
  - reflexivity.
  - apply list_elem_of_further, list_elem_of_here.
  - reflexivity.
  - lia.
Defined.

(** X11: a "Remove" press whose index has no click count (at or beyond
    the length of [remove_clicks], or below minus that length) ends in
    [IndexError]; a negative index within that length reads a click count
    from the end and removes nothing.  The data manager is unchanged in
    both cases. *)
Theorem remove_press_with_stray_index (add_clicks : Z)
    (remove_clicks : list Z) (index : Z) (app_name : option string)
    (hours minutes seconds opens : Py.value) (self : DataManager) :
  let n := Z.of_nat (length remove_clicks) in
  let result :=
    add_app_callback add_clicks remove_clicks (RemoveAppBtn index) app_name
      hours minutes seconds opens self in
  (index < - n ∨ n ≤ index → result = (RaisedIndexError, self)) ∧
  (- n ≤ index < 0 → result = (render self, self)).
Proof.
  simpl. unfold add_app_callback, PyList.getitem. split.
  - intros Hout.
    destruct (Z.leb_spec 0 index), (Z.ltb_spec index (Z.of_nat (length remove_clicks))),
      (Z.leb_spec (- Z.of_nat (length remove_clicks)) index), (Z.ltb_spec index 0);
      simpl; try reflexivity; lia.
  - intros [Hlo Hhi].
    destruct (Z.leb_spec 0 index); [lia|]. simpl.
    destruct (Z.leb_spec (- Z.of_nat (length remove_clicks)) index); [|lia].
    destruct (Z.ltb_spec index 0); [|lia]. simpl.
    destruct (remove_clicks !! _) as [clicks|] eqn:Hget.
    + rewrite remove_app_out_of_range by lia. by destruct (0 <? clicks).
    + apply lookup_ge_None in Hget. lia.
Qed.

Lemma remove_press_with_stray_index_witness :
  add_app_callback 1 [1] (RemoveAppBtn 1) None
    Py.VNone Py.VNone Py.VNone Py.VNone (add_app "Mail" 0 10 0 2 init) =
    (RaisedIndexError, add_app "Mail" 0 10 0 2 init) ∧
  add_app_callback 1 [1] (RemoveAppBtn (-1)) None
    Py.VNone Py.VNone Py.VNone Py.VNone (add_app "Mail" 0 10 0 2 init) =
    (render (add_app "Mail" 0 10 0 2 init), add_app "Mail" 0 10 0 2 init).
Proof.
  split.
  - apply (proj1 (remove_press_with_stray_index 1 [1] 1 None
                    Py.VNone Py.VNone Py.VNone Py.VNone
                    (add_app "Mail" 0 10 0 2 init))).
    simpl. lia.
  - apply (proj2 (remove_press_with_stray_index 1 [1] (-1) None
                    Py.VNone Py.VNone Py.VNone Py.VNone
                    (add_app "Mail" 0 10 0 2 init))).
    simpl. lia.
Defined.

(** X12: after an accepted add the list shown is the list shown before,
    followed by the new entry numbered with the previous length. *)
Theorem accepted_add_shows_new_entry_last (add_clicks : Z)
    (remove_clicks : list Z) (app_name : option string)
    (hours minutes seconds opens : Py.value) (self : DataManager)
    (h m s o : Z) (items : list (Z * app_data)) :
  0 < add_clicks →
  validate app_name hours minutes seconds opens = inr (h, m, s, o) →
  render self = AppsList items →
  (add_app_callback add_clicks remove_clicks AddAppBtn app_name
     hours minutes seconds opens self).1 =
  AppsList
    (items ++
     [(Z.of_nat (length (get_apps_data self)),
       AppData (text_of app_name) (h * 3600 + m * 60 + s) o)]).
Proof.
  intros Hclicks Hval [= <-].
  rewrite (callback_add_accepted _ _ _ _ _ _ _ _ h m s o) by done.
  simpl. unfold render, get_apps_data.
  rewrite add_app_entry, imap_app. simpl. by rewrite Nat.add_0_r.
Qed.

Lemma accepted_add_shows_new_entry_last_witness :
  (add_app_callback 1 [] AddAppBtn (Some "Mail")
     Py.VNone (Py.VInt 10) Py.VNone (Py.VInt 2)
     (add_app "Brave" 1 30 0 5 init)).1 =
  AppsList ([(0, AppData "Brave" 5400 5)] ++ [(1, AppData "Mail" 600 2)]).
Proof.
  apply (accepted_add_shows_new_entry_last 1 [] (Some "Mail")
           Py.VNone (Py.VInt 10) Py.VNone (Py.VInt 2)
           (add_app "Brave" 1 30 0 5 init) 0 10 0 2
           [(0, AppData "Brave" 5400 5)]).
  - lia.
  - reflexivity.
  - reflexivity.
Defined.

(** ** More on validation *)

(** X13: validation succeeds exactly when the name is present, the four
    fields convert, and the converted values lie in their ranges; the
    values returned are the converted ones. *)
Theorem validate_accepts_iff (app_name : option string)
    (hours minutes seconds opens : Py.value) (h m s o : Z) :
  validate app_name hours minutes seconds opens = inr (h, m, s, o) ↔
  Py.truthy app_name = true ∧
  Py.int_or_zero hours = Some h ∧ Py.int_or_zero minutes = Some m ∧
  Py.int_or_zero seconds = Some s ∧ Py.int_or_zero opens = Some o ∧
  0 ≤ h ≤ 24 ∧ 0 ≤ m ≤ 59 ∧ 0 ≤ s ≤ 59 ∧ 0 ≤ o.
Proof.
  split.
  - intros (Hname & Hconv & Hranges)%validate_inr.
    apply convert_Some in Hconv. tauto.
  - intros (Hname & Hh & Hm & Hs & Ho & Hrh & Hrm & Hrs & Hro).
    rewrite (validate_converted _ _ _ _ _ h m s o);
      [| done | by apply convert_Some].
    unfold check_ranges. case_bounds.
Qed.

(** X14: the "valid integers" error is only ever caused by a field on
    which [int] raises [ValueError]: text that is no integer literal, or a
    NaN; fields that are empty or hold an integer or a finite float never
    produce it. *)
Theorem non_integer_error_needs_text_or_nan (app_name : option string)
    (hours minutes seconds opens : Py.value) :
  validate app_name hours minutes seconds opens = inl NonIntegerError →
  ∃ v : Py.value,
    (hours = v ∨ minutes = v ∨ seconds = v ∨ opens = v) ∧
    (v = Py.VNaN ∨
     ∃ (text : string) (beyond_ascii : option Z),
       v = Py.VStr text beyond_ascii ∧
       Py.int_of_str text beyond_ascii = None).
Proof.
  unfold validate. destruct (Py.truthy app_name); simpl; [|done].
  destruct (convert hours minutes seconds opens)
    as [[[[h m] s] o]|] eqn:Hconv.
  - unfold check_ranges. repeat case_match; congruence.
  - intros _. apply convert_None in Hconv.
    assert (Hraises : ∀ v, Py.int_or_zero v = None →
              v = Py.VNaN ∨
              ∃ text beyond_ascii,
                v = Py.VStr text beyond_ascii ∧
                Py.int_of_str text beyond_ascii = None).
    { intros [| z | mant e | | text u]; simpl; try done; eauto. }
    destruct Hconv as [Hv | [Hv | [Hv | Hv]]];
      apply Hraises in Hv; eexists; (split; [|exact Hv]); tauto.
Qed.

Lemma non_integer_error_needs_text_or_nan_witness :
  ∃ v : Py.value,
    (Py.VInt 25 = v ∨ Py.VStr "1.5" None = v ∨ Py.VNone = v ∨ Py.VNaN = v) ∧
    (v = Py.VNaN ∨
     ∃ (text : string) (beyond_ascii : option Z),
       v = Py.VStr text beyond_ascii ∧
       Py.int_of_str text beyond_ascii = None).
Proof.
  apply (non_integer_error_needs_text_or_nan (Some "Brave")
           (Py.VInt 25) (Py.VStr "1.5" None) Py.VNone Py.VNaN).
  reflexivity.
Defined.

(** ** More on whole sessions *)

Lemma remove_app_length_le (index : Z) (self : DataManager) :
  (length (apps_data (remove_app index self)) ≤ length (apps_data self))%nat.
Proof.
  destruct (decide (0 ≤ index < Z.of_nat (length (apps_data self))))
    as [Hin | Hout].
  - pose proof (remove_app_length index self Hin). lia.
  - by rewrite remove_app_out_of_range.
Qed.

Lemma callback_length_le (add_clicks : Z) (remove_clicks : list Z)
    (triggered : triggered_id) (app_name : option string)
    (hours minutes seconds opens : Py.value) (self : DataManager) :
  (length (apps_data
             (add_app_callback add_clicks remove_clicks triggered app_name
                hours minutes seconds opens self).2)
   ≤ length (apps_data self) +
     (if triggered is AddAppBtn then 1 else 0))%nat.
Proof.
  unfold add_app_callback. destruct triggered as [| |index].
  - cbn [snd]. lia.
  - destruct (0 <? add_clicks); cbn [snd]; [|lia].
    destruct (validate app_name hours minutes seconds opens)
      as [e | [[[h m] s] o]]; cbn [snd]; [lia|].
    rewrite add_app_length. lia.
  - destruct (PyList.getitem remove_clicks index) as [clicks|];
      cbn [snd]; [|lia].
    destruct (0 <? clicks); [|lia].
    pose proof (remove_app_length_le index self). lia.
Qed.

Lemma foldl_step_length (actions : list action) (self : DataManager) :
  (length (apps_data (foldl step self actions))
   ≤ length (apps_data self) + length (List.filter is_add actions))%nat.
Proof.
  revert self. induction actions as [|a actions IH]; intros self; simpl.
  - lia.
  - etrans; [apply IH|].
    destruct a as [add_clicks remove_clicks triggered app_name
                     hours minutes seconds opens | store n_clicks d c].
    + pose proof (callback_length_le add_clicks remove_clicks triggered
                    app_name hours minutes seconds opens self) as Hle.
      simpl. destruct triggered; simpl in *; lia.
    + simpl. lia.
Qed.

(** X15: a session never holds more entries than the number of "Add App"
    presses it has seen; submissions add and remove nothing. *)
Theorem session_size_bounded_by_adds (actions : list action) :
  (length (get_apps_data (run actions))
   ≤ length (List.filter is_add actions))%nat ∧
  ∀ (store : store_call → option string) (n_clicks : Z)
    (date_input collection_name : option string),
    run (actions ++ [Submit store n_clicks date_input collection_name]) =
    run actions.
Proof.
  split.
  - apply (foldl_step_length actions init).
  - intros. unfold run. by rewrite foldl_app.
Qed.

Lemma dict_lookup_elem {V} (kvs : list (string * V)) (k : string) (v : V) :
  PyList.dict kvs !! k = Some v → (k, v) ∈ kvs.
Proof.
  induction kvs as [|[k' v'] kvs IH] using rev_ind; [done|].
  rewrite dict_snoc, elem_of_app, list_elem_of_singleton.
  destruct (decide (k' = k)) as [-> | Hne].
  - rewrite lookup_insert_eq. intros [= ->]. by right.
  - rewrite lookup_insert_ne by done. intros Hk. left. by apply IH.
Qed.

Lemma spec_total_le (f : app_data → Z) (bound : Z) (entries : list app_data) :
  Forall (λ e, f e ≤ bound) entries →
  spec_total f entries ≤ bound * Z.of_nat (length entries).
Proof. induction 1; simpl length; simpl spec_total; lia. Qed.

(** X16: in a document built at any point of a session, every key of
    [apps] is a non-empty name, every value has a screen time between 0
    and 89999 and non-negative opens, and the total screen time is at most
    89999 per entry of the store. *)
Theorem session_document_bounds (actions : list action)
    (date_input : string) :
  let doc := prepare_submission_data date_input (run actions) in
  (∀ (n : string) (st : app_stats),
     apps doc !! n = Some st →
     n ≠ "" ∧ 0 ≤ stats_screenTime st ≤ 89999 ∧ 0 ≤ stats_opens st) ∧
  summary_screenTime (summary doc) ≤
    89999 * Z.of_nat (length (get_apps_data (run actions))).
Proof.
  assert (Hrun : Forall valid_entry (apps_data (run actions))).
  { apply foldl_step_valid. constructor. }
  unfold prepare_submission_data, get_apps_data. cbn [apps summary summary_screenTime].
  split.
  - intros n st Hlook%dict_lookup_elem.
    apply list_elem_of_fmap in Hlook as (e & [= -> ->] & He).
    rewrite Forall_forall in Hrun. apply Hrun in He.
    unfold valid_entry in He. simpl. tauto.
  - rewrite sum_map_spec_total. apply spec_total_le.
    eapply Forall_impl; [exact Hrun|]. unfold valid_entry. intros e He. lia.
Qed.

(** ** More on submission *)

(** X17: a submission issues a call to the store exactly when the button
    was clicked and both a collection and a date are given; it is then the
    single insert of the document built from the current entries, into
    database "digital_wellness" and the chosen collection. *)
Theorem submit_calls_iff (store : store_call → option string)
    (n_clicks : Z) (date_input collection_name : option string)
    (self : DataManager) (call : store_call) :
  let calls :=
    (submit_data_callback store n_clicks date_input collection_name self).2 in
  (length calls ≤ 1)%nat ∧
  (call ∈ calls ↔
   n_clicks ≠ 0 ∧ Py.truthy collection_name = true ∧
   Py.truthy date_input = true ∧
   call = InsertOne "digital_wellness" (text_of collection_name)
            (prepare_submission_data (text_of date_input) self)).
Proof.
  unfold submit_data_callback.
  destruct (Z.eqb_spec n_clicks 0) as [Hz | Hnz]; cbn [snd negb].
  { split; [simpl; lia|]. rewrite elem_of_nil. tauto. }
  destruct (Py.truthy collection_name); cbn [snd negb].
  2: { split; [simpl; lia|]. rewrite elem_of_nil. split; [done|].
       intros (_ & ? & _). done. }
  destruct (Py.truthy date_input); cbn [snd negb].
  2: { split; [simpl; lia|]. rewrite elem_of_nil. split; [done|].
       intros (_ & _ & ? & _). done. }
  destruct (store _); cbn [snd]; (split; [simpl; lia|]);
    rewrite list_elem_of_singleton; tauto.
Qed.

(** X18: once the guards are passed, the answer is the success text
    exactly when the store accepted the insert; when the store raised, the
    answer is "Error: " followed by the exception's text, and the insert
    was issued all the same. *)
Theorem submit_answer_follows_store (store : store_call → option string)
    (n_clicks : Z) (date_input collection_name : option string)
    (self : DataManager) :
  n_clicks ≠ 0 → Py.truthy collection_name = true →
  Py.truthy date_input = true →
  let call :=
    InsertOne "digital_wellness" (text_of collection_name)
      (prepare_submission_data (text_of date_input) self) in
  let result :=
    submit_data_callback store n_clicks date_input collection_name self in
  (result.1 = SubmitText "Data submitted successfully!" ↔ store call = None) ∧
  (∀ cause : string,
     store call = Some cause →
     result = (SubmitText ("Error: " +:+ cause), [call])).
Proof.
  intros Hn Hc Hd. unfold submit_data_callback.
  destruct (Z.eqb_spec n_clicks 0); [done|]. rewrite Hc, Hd. cbn [negb].
  destruct (store _) as [cause|]; cbn [fst]; split; try done.
  intros cause' [= ->]. reflexivity.
Qed.

Lemma submit_answer_follows_store_witness :
  submit_data_callback (λ _, Some "connection refused") 1
    (Some "2024-01-01") (Some "user1") init =
  (SubmitText ("Error: " +:+ "connection refused"),
   [InsertOne "digital_wellness" "user1"
      (prepare_submission_data "2024-01-01" init)]).
Proof.
  apply (submit_answer_follows_store (λ _, Some "connection refused") 1
           (Some "2024-01-01") (Some "user1") init); try reflexivity.
  lia.
Defined.

(** ** Screen time, decoded *)

(** X19: with minutes and seconds in 0..59 and hours not negative, the
    seconds computed by [parse_screen_time] determine the three fields:
    integer division gives them back. *)
Theorem parse_screen_time_decodes (h m s : Z) :
  0 ≤ h → 0 ≤ m ≤ 59 → 0 ≤ s ≤ 59 →
  let t := parse_screen_time h m s in
  t / 3600 = h ∧ (t mod 3600) / 60 = m ∧ t mod 60 = s.
Proof.
  intros Hh Hm Hs. unfold parse_screen_time. simpl.
  assert (Ht : h * 3600 + m * 60 + s = (m * 60 + s) + h * 3600) by lia.
  assert (Hq : (h * 3600 + m * 60 + s) / 3600 = h).
  { rewrite Ht, Z.div_add by lia. rewrite Z.div_small by lia. lia. }
  assert (Hr : (h * 3600 + m * 60 + s) mod 3600 = m * 60 + s).
  { rewrite Ht, Z.mod_add by lia. apply Z.mod_small. lia. }
  split; [exact Hq|]. split.
  - rewrite Hr. replace (m * 60 + s) with (s + m * 60) by lia.
    rewrite Z.div_add by lia. rewrite Z.div_small by lia. lia.
  - replace (h * 3600 + m * 60 + s) with (s + (h * 60 + m) * 60) by lia.
    rewrite Z.mod_add by lia. apply Z.mod_small. lia.
Qed.

Lemma parse_screen_time_decodes_witness :
  parse_screen_time 1 30 0 / 3600 = 1 ∧
  (parse_screen_time 1 30 0 mod 3600) / 60 = 30 ∧
  parse_screen_time 1 30 0 mod 60 = 0.
Proof. apply (parse_screen_time_decodes 1 30 0); lia. Defined.

(** ** The earlier form *)

Lemma dashboard_or0 (v : option Z) : Dashboard.or0 v = default 0 v.
Proof. destruct v; simpl; [apply or0_id | done]. Qed.

Lemma dashboard_add_app_blocked (n_clicks : Z) (app_name : option string)
    (hours minutes notifications opens : option Z)
    (apps_data : list Dashboard.app_data) :
  n_clicks = 0 ∨ Py.truthy app_name = false ∨ (hours = None ∧ minutes = None) →
  Dashboard.add_app n_clicks app_name hours minutes notifications opens
    apps_data = (Dashboard.PreventUpdate, apps_data).
Proof.
  unfold Dashboard.add_app. intros [-> | [-> | [-> ->]]].
  - reflexivity.
  - simpl. by rewrite orb_true_r.
  - simpl. by rewrite orb_true_r.
Qed.

Lemma dashboard_add_app_appends (n_clicks : Z) (app_name : option string)
    (hours minutes notifications opens : option Z)
    (apps_data : list Dashboard.app_data) :
  n_clicks ≠ 0 → Py.truthy app_name = true →
  is_Some hours ∨ is_Some minutes →
  Dashboard.add_app n_clicks app_name hours minutes notifications opens
    apps_data =
  let app :=
    Dashboard.AppData (text_of app_name)
      (default 0 hours * 3600 + default 0 minutes * 60)
      (default 0 notifications) (default 0 opens) in
  (Dashboard.Items (apps_data ++ [app]), apps_data ++ [app]).
Proof.
  intros Hn Hname Hfield. unfold Dashboard.add_app.
  destruct (Z.eqb_spec n_clicks 0); [done|]. rewrite Hname.
  assert (Dashboard.is_none hours && Dashboard.is_none minutes = false) as ->.
  { destruct Hfield as [[h ->] | [m ->]]; simpl; [done|].
    by rewrite andb_false_r. }
  cbn [orb negb]. unfold Dashboard.parse_screen_time.
  by rewrite !dashboard_or0.
Qed.

(** X20: the earlier [add_app] callback does nothing (no update, list
    unchanged) when there was no click, when the name is empty or absent,
    or when hours and minutes are both absent.  In every other case it
    appends one entry, whatever the numbers are, with screen time
    [hours * 3600 + minutes * 60] and zero for each absent field, and
    shows the whole list. *)
Theorem dashboard_add_app_outcome (n_clicks : Z) (app_name : option string)
    (hours minutes notifications opens : option Z)
    (apps_data : list Dashboard.app_data) :
  let result :=
    Dashboard.add_app n_clicks app_name hours minutes notifications opens
      apps_data in
  let app :=
    Dashboard.AppData (text_of app_name)
      (default 0 hours * 3600 + default 0 minutes * 60)
      (default 0 notifications) (default 0 opens) in
  (n_clicks = 0 ∨ Py.truthy app_name = false ∨
   (hours = None ∧ minutes = None) →
   result = (Dashboard.PreventUpdate, apps_data)) ∧
  (n_clicks ≠ 0 → Py.truthy app_name = true →
   is_Some hours ∨ is_Some minutes →
   result = (Dashboard.Items (apps_data ++ [app]), apps_data ++ [app])).
Proof.
  split.
  - apply dashboard_add_app_blocked.
  - apply dashboard_add_app_appends.
Qed.

Lemma dashboard_add_app_outcome_witness :
  Dashboard.add_app 1 (Some "Brave") None None (Some 3) (Some 5) [] =
    (Dashboard.PreventUpdate, []) ∧
  Dashboard.add_app 1 (Some "Brave") (Some (-2)) None None (Some 5) [] =
    (Dashboard.Items [Dashboard.AppData "Brave" (-7200) 0 5],
     [Dashboard.AppData "Brave" (-7200) 0 5]).
Proof.
  split.
  - apply (proj1 (dashboard_add_app_outcome 1 (Some "Brave") None None
                    (Some 3) (Some 5) [])).
    right. right. split; reflexivity.
  - apply (proj2 (dashboard_add_app_outcome 1 (Some "Brave") (Some (-2)) None
                    None (Some 5) [])).
    + lia.
    + reflexivity.
    + left. by exists (-2).
Defined.

(** X21: on an add that both forms accept (name present, hours or minutes
    given, hours in 0..24, minutes in 0..59, opens not negative, seconds
    left empty in the later form) the two forms append entries with the
    same name, screen time and opens. *)
Theorem forms_agree_on_accepted_add (clicks : Z) (remove_clicks : list Z)
    (app_name : option string) (hours minutes notifications count : option Z)
    (self : DataManager) (apps_data : list Dashboard.app_data) :
  0 < clicks → Py.truthy app_name = true →
  is_Some hours ∨ is_Some minutes →
  0 ≤ default 0 hours ≤ 24 → 0 ≤ default 0 minutes ≤ 59 →
  0 ≤ default 0 count →
  ∃ (e : app_data) (d : Dashboard.app_data),
    get_apps_data
      (add_app_callback clicks remove_clicks AddAppBtn app_name
         (field_of hours) (field_of minutes) Py.VNone (field_of count)
         self).2 = get_apps_data self ++ [e] ∧
    (Dashboard.add_app clicks app_name hours minutes notifications count
       apps_data).2 = apps_data ++ [d] ∧
    name e = Dashboard.name d ∧
    screenTime e = Dashboard.screenTime d ∧
    opens e = Dashboard.opens d.
Proof.
  intros Hclicks Hname Hfield Hh Hm Ho.
  eexists _, _. split; [|split].
  - assert (Hval : validate app_name (field_of hours) (field_of minutes)
                     Py.VNone (field_of count) =
                   inr (default 0 hours, default 0 minutes, 0,
                        default 0 count)).
    { rewrite (validate_converted _ _ _ _ _ (default 0 hours)
                 (default 0 minutes) 0 (default 0 count)); [| done |].
      - unfold check_ranges. case_bounds.
      - by destruct hours, minutes, count. }
    rewrite (callback_add_accepted _ _ _ _ _ _ _ _ _ _ _ _ Hclicks Hval).
    unfold get_apps_data. cbn [snd]. apply add_app_entry.
  - rewrite dashboard_add_app_appends by (done || lia). reflexivity.
  - simpl. repeat split. lia.
Qed.

Lemma forms_agree_on_accepted_add_witness :
  ∃ (e : app_data) (d : Dashboard.app_data),
    get_apps_data
      (add_app_callback 1 [] AddAppBtn (Some "Brave")
         (Py.VInt 1) (Py.VInt 30) Py.VNone (Py.VInt 5) init).2 =
      get_apps_data init ++ [e] ∧
    (Dashboard.add_app 1 (Some "Brave") (Some 1) (Some 30) (Some 4) (Some 5)
       []).2 = [] ++ [d] ∧
    name e = Dashboard.name d ∧
    screenTime e = Dashboard.screenTime d ∧
    opens e = Dashboard.opens d.
Proof.
  apply (forms_agree_on_accepted_add 1 [] (Some "Brave")
           (Some 1) (Some 30) (Some 4) (Some 5) init []); simpl;
    try lia; try reflexivity.
  left. by exists 1.
Defined.

(** X22: where the two forms part.  With only a name filled in the
    earlier form does nothing while the later one appends an entry of zero
    screen time; with hours outside 0..24 the earlier form appends the
    entry while the later one answers with the hours error and appends
    nothing. *)
Theorem forms_differ (clicks : Z) (remove_clicks : list Z)
    (app_name : option string) (self : DataManager)
    (apps_data : list Dashboard.app_data) :
  0 < clicks → Py.truthy app_name = true →
  ((Dashboard.add_app clicks app_name None None None None apps_data).2 =
     apps_data ∧
   get_apps_data
     (add_app_callback clicks remove_clicks AddAppBtn app_name
        Py.VNone Py.VNone Py.VNone Py.VNone self).2 =
     get_apps_data self ++ [AppData (text_of app_name) 0 0]) ∧
  (∀ h : Z, ¬ 0 ≤ h ≤ 24 →
     length (Dashboard.add_app clicks app_name (Some h) None None None
               apps_data).2 = S (length apps_data) ∧
     add_app_callback clicks remove_clicks AddAppBtn app_name
       (Py.VInt h) Py.VNone Py.VNone Py.VNone self =
     (ErrorItem (message (InvalidRangeError Hours)), self)).
Proof.
  intros Hclicks Hname. split; [split|].
  - rewrite dashboard_add_app_blocked; [done | tauto].
  - rewrite (callback_add_accepted _ _ _ _ _ _ _ _ 0 0 0 0);
      [| done | by unfold validate; rewrite Hname].
    unfold get_apps_data. cbn [snd]. apply add_app_entry.
  - intros h Hh. split.
    + rewrite dashboard_add_app_appends; [| lia | done | by left].
      cbn [snd]. rewrite length_app. simpl. lia.
    + apply callback_add_rejected; [done|].
      rewrite (validate_converted _ _ _ _ _ h 0 0 0) by done.
      unfold check_ranges. case_bounds.
Qed.

Lemma forms_differ_witness :
  (Dashboard.add_app 1 (Some "Brave") None None None None []).2 = [] ∧
  get_apps_data
    (add_app_callback 1 [] AddAppBtn (Some "Brave")
       Py.VNone Py.VNone Py.VNone Py.VNone init).2 =
    get_apps_data init ++ [AppData "Brave" 0 0].
Proof.
  apply (forms_differ 1 [] (Some "Brave") init []); [lia | reflexivity].
Defined.

(** ** The dictionary against the summary *)

Lemma sum_snoc (xs : list Z) (x : Z) :
  PyList.sum (xs ++ [x]) = PyList.sum xs + x.
Proof. unfold PyList.sum. by rewrite foldl_app. Qed.

Lemma apps_screen_time_insert (m : gmap string app_stats) (k : string)
    (v : app_stats) :
  apps_screen_time (<[k := v]> m) =
  stats_screenTime v + apps_screen_time m -
  from_option stats_screenTime 0 (m !! k).
Proof.
  unfold apps_screen_time.
  destruct (m !! k) as [old|] eqn:Hk; simpl.
  - rewrite <- insert_delete_eq.
    rewrite map_fold_insert_L; [| intros; lia | apply lookup_delete_eq].
    rewrite (map_fold_delete_L _ _ k old m); [lia | intros; lia | done].
  - rewrite map_fold_insert_L; [lia | intros; lia | done].
Qed.

(** X23: the screen times kept in [apps] add up to [summary.screenTime]
    when no two entries share a name; when screen times are not negative
    they never add up to more, whatever the names. *)
Theorem apps_total_against_summary (date_input : string)
    (self : DataManager) :
  let doc := prepare_submission_data date_input self in
  (NoDup (map name (get_apps_data self)) →
   apps_screen_time (apps doc) = summary_screenTime (summary doc)) ∧
  (Forall (λ e, 0 ≤ screenTime e) (get_apps_data self) →
   apps_screen_time (apps doc) ≤ summary_screenTime (summary doc)).
Proof.
  unfold prepare_submission_data, get_apps_data.
  cbn [apps summary summary_screenTime].
  induction (apps_data self) as [|e entries [IHeq IHle]] using rev_ind.
  - split; intros _; reflexivity.
  - rewrite !map_app. simpl map.
    rewrite dict_snoc, sum_snoc, apps_screen_time_insert. simpl.
    split.
    + intros [Hnodup [Hfresh _]]%NoDup_app.
      destruct (PyList.dict _ !! name e) as [old|] eqn:Hk.
      * apply dict_lookup_elem, list_elem_of_fmap in Hk
          as (e' & [= Hname _] & He').
        exfalso. apply (Hfresh (name e)).
        -- rewrite Hname. by apply list_elem_of_fmap_2.
        -- apply list_elem_of_here.
      * simpl. rewrite IHeq by done. lia.
    + intros [Hpos He]%Forall_app. rewrite Forall_singleton in He.
      specialize (IHle Hpos).
      destruct (PyList.dict _ !! name e) as [old|] eqn:Hk; simpl; [|lia].
      apply dict_lookup_elem, list_elem_of_fmap in Hk
        as (e' & [= _ ->] & He').
      rewrite Forall_forall in Hpos. apply Hpos in He'. simpl. lia.
Qed.

Lemma apps_total_against_summary_witness :
  apps_screen_time
    (apps (prepare_submission_data "2024-01-01"
             (add_app "Mail" 0 10 0 2 (add_app "Brave" 1 30 0 5 init)))) =
  summary_screenTime
    (summary (prepare_submission_data "2024-01-01"
                (add_app "Mail" 0 10 0 2 (add_app "Brave" 1 30 0 5 init)))).
Proof.
  apply (proj1 (apps_total_against_summary "2024-01-01"
                  (add_app "Mail" 0 10 0 2 (add_app "Brave" 1 30 0 5 init)))).
  unfold get_apps_data. rewrite !add_app_entry. simpl.
  apply NoDup_cons; split; [|apply NoDup_singleton].
  rewrite list_elem_of_singleton. discriminate.
Defined.

(** ** How the summary follows the store *)

Lemma spec_total_app (f : app_data → Z) (xs ys : list app_data) :
  spec_total f (xs ++ ys) = spec_total f xs + spec_total f ys.
Proof. induction xs as [|x xs IH]; simpl; lia. Qed.

Lemma spec_total_delete (f : app_data → Z) (entries : list app_data)
    (i : nat) (e : app_data) :
  entries !! i = Some e →
  spec_total f (delete i entries) = spec_total f entries - f e.
Proof.
  revert i. induction entries as [|x entries IH]; intros [|i] Hi;
    simpl in *; try done.
  - injection Hi as ->. lia.
  - rewrite (IH i) by done. lia.
Qed.

(** X24: an accepted add raises the two totals of the summary by the new
    entry's screen time and opens; a "Remove" press that removes the entry
    at its index lowers them by that entry's screen time and opens. *)
Theorem summary_follows_add_and_remove (date_input : string)
    (self : DataManager) :
  let totals (dm : DataManager) :=
    (summary_screenTime (summary (prepare_submission_data date_input dm)),
     summary_unlocks (summary (prepare_submission_data date_input dm))) in
  (∀ (app_name : string) (h m s o : Z),
     totals (add_app app_name h m s o self) =
     ((totals self).1 + (h * 3600 + m * 60 + s), (totals self).2 + o)) ∧
  (∀ (i : nat) (e : app_data),
     get_apps_data self !! i = Some e →
     totals (remove_app (Z.of_nat i) self) =
     ((totals self).1 - screenTime e, (totals self).2 - opens e)).
Proof.
  unfold prepare_submission_data, get_apps_data.
  cbn [summary summary_screenTime summary_unlocks fst snd].
  split.
  - intros app_name h m s o.
    rewrite !sum_map_spec_total, add_app_entry, !spec_total_app. simpl.
    f_equal; lia.
  - intros i e Hi. pose proof (lookup_lt_Some _ _ _ Hi) as Hlt.
    rewrite !sum_map_spec_total, remove_app_in_range, Nat2Z.id by lia.
    by rewrite !(spec_total_delete _ _ i e).
Qed.

Lemma summary_follows_add_and_remove_witness :
  (summary_screenTime
     (summary (prepare_submission_data "2024-01-01"
                 (remove_app (Z.of_nat 0) (add_app "Mail" 0 10 0 2 init)))),
   summary_unlocks
     (summary (prepare_submission_data "2024-01-01"
                 (remove_app (Z.of_nat 0) (add_app "Mail" 0 10 0 2 init)))))
  = (600 - 600, 2 - 2).
Proof.
  apply (proj2 (summary_follows_add_and_remove "2024-01-01"
                  (add_app "Mail" 0 10 0 2 init))
           0%nat (AppData "Mail" 600 2)).
  reflexivity.
Defined.

(** ** Submission in the earlier form *)

(** X25: in the earlier form an accepted add raises the three totals of
    the document by the new entry's screen time
    ([hours * 3600 + minutes * 60]), notifications and opens, absent fields
    counting as zero; an empty list gives three zeros. *)
Theorem dashboard_summary_follows_add (date_input : string)
    (n_clicks : Z) (app_name : option string)
    (hours minutes notifications count : option Z)
    (apps_data : list Dashboard.app_data) :
  n_clicks ≠ 0 → Py.truthy app_name = true →
  is_Some hours ∨ is_Some minutes →
  let before := Dashboard.summary (Dashboard.new_data date_input apps_data) in
  let after :=
    Dashboard.summary
      (Dashboard.new_data date_input
         (Dashboard.add_app n_clicks app_name hours minutes notifications
            count apps_data).2) in
  Dashboard.summary_screenTime after =
    Dashboard.summary_screenTime before +
    (default 0 hours * 3600 + default 0 minutes * 60) ∧
  Dashboard.summary_notifications after =
    Dashboard.summary_notifications before + default 0 notifications ∧
  Dashboard.summary_unlocks after =
    Dashboard.summary_unlocks before + default 0 count ∧
  Dashboard.summary (Dashboard.new_data date_input []) =
    {| Dashboard.summary_screenTime := 0;
       Dashboard.summary_notifications := 0;
       Dashboard.summary_unlocks := 0 |}.
Proof.
  intros Hn Hname Hfield.
  rewrite dashboard_add_app_appends by done.
  unfold Dashboard.new_data. simpl. rewrite !map_app. simpl map.
  by rewrite !sum_snoc.
Qed.

Lemma dashboard_summary_follows_add_witness :
  Dashboard.summary_screenTime
    (Dashboard.summary
       (Dashboard.new_data "2024-01-01"
          (Dashboard.add_app 1 (Some "Brave") (Some 1) (Some 30) None
             (Some 5) []).2)) =
  Dashboard.summary_screenTime
    (Dashboard.summary (Dashboard.new_data "2024-01-01" [])) +
  (default 0 (Some 1) * 3600 + default 0 (Some 30) * 60).
Proof.
  apply (dashboard_summary_follows_add "2024-01-01" 1 (Some "Brave")
           (Some 1) (Some 30) None (Some 5) []).
  - lia.
  - reflexivity.
  - left. by exists 1.
Defined.

(** X26: the earlier [update_collection] issues a call to the store
    exactly when the button was clicked and both a collection and a date
    are given: the single insert, into database "digital_wellness" and the
    chosen collection, of the document built from the list; the collection
    test comes before the date test. *)
Theorem dashboard_update_collection_calls
    (store : Dashboard.store_call → option string) (n_clicks : Z)
    (date_input collection_name : option string)
    (apps_data : list Dashboard.app_data) (call : Dashboard.store_call) :
  let result :=
    Dashboard.update_collection store n_clicks date_input collection_name
      apps_data in
  (call ∈ result.2 ↔
   n_clicks ≠ 0 ∧ Py.truthy collection_name = true ∧
   Py.truthy date_input = true ∧
   call = Dashboard.InsertOne "digital_wellness" (text_of collection_name)
            (Dashboard.new_data (text_of date_input) apps_data)) ∧
  (length result.2 ≤ 1)%nat ∧
  (n_clicks ≠ 0 → Py.truthy collection_name = false →
   result.1 = Dashboard.SubmitText "Error: Please select a collection.").
Proof.
  unfold Dashboard.update_collection.
  destruct (Z.eqb_spec n_clicks 0) as [Hz | Hnz]; cbn [fst snd negb].
  { rewrite elem_of_nil. simpl. intuition (congruence || lia). }
  destruct (Py.truthy collection_name); cbn [fst snd negb].
  2: { rewrite elem_of_nil. simpl. intuition (congruence || lia). }
  destruct (Py.truthy date_input); cbn [fst snd negb].
  2: { rewrite elem_of_nil. simpl. intuition (congruence || lia). }
  destruct (store _); cbn [fst snd]; rewrite list_elem_of_singleton; simpl;
    intuition (congruence || lia).
Qed.
